(** * Quiz batch generator: the POST /api/generate-quiz handler of server.js

    The source file holds two versions of the handler (lines 21-158 and
    lines 189-348).  They share the request validation, the batch
    arithmetic, the markdown fence stripping, the structural check and the
    per-question defaulting; they differ in the prompt, in the model name
    and in the fallback question used when [JSON.parse] throws.

    Modelling choices.
    - A JavaScript string is a [string]: a sequence of code units, here the
      code units below 256.
    - A JavaScript number is an exact rational [Q] (integers are
      [inject_Z z]); IEEE-754 rounding is not modelled.
    - The request body is taken at the types of the wire contract: [topic]
      a string, [numQuestions], [batch], [totalQuestions] integers, each of
      them possibly absent.
    - A thrown exception is a value [Throw message]; the [try]/[catch] of the
      handler turns it into the 500 response.
    - [console.log] and [console.error] lines are left out: they do not
      reach the response.
    - The built-in [JSON.parse] is a parameter of the handler
      ([None] when it throws).  The parser [json_parse] defined below
      follows the JSON grammar and is used to run the handler on concrete
      reply texts. *)

From Stdlib Require Import String Ascii List ZArith QArith Bool Lia.
From Stdlib Require Finite.
Import ListNotations.

Local Open Scope Z_scope.
Local Open Scope string_scope.

(** ** Strings *)

Definition LF : ascii := "010"%char.
Definition nl : string := String LF "".

(** The ECMAScript white space and line terminators among the code units
    below 256: TAB, LF, VT, FF, CR, SP and NBSP. *)
Definition isWhiteSpace (c : ascii) : bool :=
  let n := nat_of_ascii c in
  (Nat.eqb n 9 || Nat.eqb n 10 || Nat.eqb n 11 || Nat.eqb n 12
   || Nat.eqb n 13 || Nat.eqb n 32 || Nat.eqb n 160)%bool.

Fixpoint trimStart (s : string) : string :=
  match s with
  | String c r => if isWhiteSpace c then trimStart r else s
  | EmptyString => EmptyString
  end.

Fixpoint trimEnd (s : string) : string :=
  match s with
  | String c r =>
      match trimEnd r with
      | EmptyString => if isWhiteSpace c then EmptyString else String c EmptyString
      | r' => String c r'
      end
  | EmptyString => EmptyString
  end.

(** [String.prototype.trim] *)
Definition trim (s : string) : string := trimEnd (trimStart s).

(** [s.startsWith(p)] *)
Definition startsWith (s p : string) : bool := prefix p s.

Fixpoint dropChars (n : nat) (s : string) : string :=
  match n, s with
  | S n', String _ r => dropChars n' r
  | _, _ => s
  end.

Definition dropOptLF (s : string) : string :=
  match s with
  | String c r => if Ascii.eqb c LF then r else s
  | EmptyString => s
  end.

(** [s.replace(/<pat>\n?/, '')] for a literal [pat]: the leftmost
    occurrence of [pat], with the line feed after it when there is one, is
    removed; without an occurrence the string is unchanged. *)
Fixpoint replaceOpening (pat s : string) : string :=
  if prefix pat s then dropOptLF (dropChars (String.length pat) s)
  else match s with
       | String c r => String c (replaceOpening pat r)
       | EmptyString => EmptyString
       end.

(** [s.replace(/\n?```$/, '')]: [$] is the end of the input (no [m] flag),
    so the leftmost match starts at the first position whose whole rest is
    either LF followed by three backticks, or three backticks. *)
Definition isClosing (s : string) : bool :=
  (String.eqb s (nl ++ "```") || String.eqb s "```")%bool.

Fixpoint replaceClosing (s : string) : string :=
  if isClosing s then EmptyString
  else match s with
       | String c r => String c (replaceClosing r)
       | EmptyString => EmptyString
       end.

(** Lines 83-94 (and 273-284): trim, then the two fence clean-ups, the
    second one applied to the result of the first. *)
Definition cleanResponse (content : string) : string :=
  let response := trim content in
  let response :=
    if startsWith response "```json"
    then replaceClosing (replaceOpening "```json" response)
    else response in
  let response :=
    if startsWith response "```"
    then replaceClosing (replaceOpening "```" response)
    else response in
  response.

(** ** JavaScript values *)

#[warnings="-register-all"]
Inductive JValue : Type :=
| JNull
| JBool (b : bool)
| JNum (q : Q)
| JStr (s : string)
| JArr (elements : list JValue)
| JObj (members : list (string * JValue)).

Definition JInt (z : Z) : JValue := JNum (inject_Z z).

(** ToBoolean *)
Definition truthy (v : JValue) : bool :=
  match v with
  | JNull => false
  | JBool b => b
  | JNum q => negb (Z.eqb (Qnum q) 0)
  | JStr s => negb (String.eqb s "")
  | JArr _ => true
  | JObj _ => true
  end.

(** [Array.isArray] *)
Definition isArray (v : JValue) : bool :=
  match v with JArr _ => true | _ => false end.

Fixpoint lookup (k : string) (members : list (string * JValue)) : option JValue :=
  match members with
  | [] => None
  | (k', v) :: r => if String.eqb k k' then Some v else lookup k r
  end.

(** Exceptions *)
Inductive Exc (A : Type) : Type :=
| Ok (a : A)
| Throw (message : string).
Arguments Ok {A} a.
Arguments Throw {A} message.

Definition bind {A B : Type} (m : Exc A) (f : A -> Exc B) : Exc B :=
  match m with
  | Ok a => f a
  | Throw e => Throw e
  end.

Notation "x <- m ;; k" := (bind m (fun x => k))
  (at level 61, m at next level, right associativity).

(** [q.k] for one of the eight property names the handler reads.  None of
    them is defined on a built-in prototype, so on a boolean, a number, a
    string or an array the result is [undefined] ([None]); on an object it
    is the member; on [null] the access throws a TypeError. *)
Definition getProp (q : JValue) (k : string) : Exc (option JValue) :=
  match q with
  | JNull => Throw ("Cannot read properties of null (reading '" ++ k ++ "')")
  | JObj members => Ok (lookup k members)
  | _ => Ok None
  end.

(** [x || d] *)
Definition orElse (x : option JValue) (d : JValue) : JValue :=
  match x with
  | Some v => if truthy v then v else d
  | None => d
  end.

(** [Array.isArray(x) ? x : d] *)
Definition arrayOr (x : option JValue) (d : list JValue) : JValue :=
  match x with
  | Some (JArr l) => JArr l
  | _ => JArr d
  end.

(** The arrow function of lines 130-139 (and 320-329). *)
Definition validateQuestion (topic : string) (startingId : Z)
    (q : JValue) (index : nat) : Exc JValue :=
  id <- getProp q "id" ;;
  question <- getProp q "question" ;;
  options <- getProp q "options" ;;
  correctAnswers <- getProp q "correctAnswers" ;;
  multipleChoice <- getProp q "multipleChoice" ;;
  difficulty <- getProp q "difficulty" ;;
  explanation <- getProp q "explanation" ;;
  category <- getProp q "category" ;;
  Ok (JObj
    [ ("id", orElse id (JInt (startingId + Z.of_nat index)));
      ("question", orElse question (JStr ""));
      ("options", arrayOr options []);
      ("correctAnswers", arrayOr correctAnswers [JInt 0]);
      ("multipleChoice", orElse multipleChoice (JBool false));
      ("difficulty", orElse difficulty (JStr "medium"));
      ("explanation", orElse explanation (JStr ""));
      ("category", orElse category (JStr topic)) ]).

(** [questions.map((q, index) => ...)], from [index] on. *)
Fixpoint mapFrom (f : JValue -> nat -> Exc JValue) (index : nat)
    (questions : list JValue) : Exc (list JValue) :=
  match questions with
  | [] => Ok []
  | q :: rest =>
      v <- f q index ;;
      vs <- mapFrom f (S index) rest ;;
      Ok (v :: vs)
  end.

Definition validatedQuestions (topic : string) (startingId : Z)
    (questions : list JValue) : Exc (list JValue) :=
  mapFrom (validateQuestion topic startingId) 0 questions.

(** ** Request, provider call and response *)

(** [req.body] *)
Record Request : Type := {
  body_topic : option string;
  body_numQuestions : option Z;
  body_batch : option Z;
  body_totalQuestions : option Z
}.

(** The two versions of the handler in the source file. *)
Inductive Version : Type :=
| Basic        (* lines 21-158 *)
| Enterprise.  (* lines 189-348 *)

(** The prompt is a fixed template per version; what the handler puts into
    its holes is recorded here. *)
Record Prompt : Type := {
  prompt_version : Version;
  prompt_limitedQuestions : Z;
  prompt_topic : string;
  prompt_batch : Z;
  prompt_startingId : Z;
  prompt_lastId : Z
}.

(** The argument of [openai.chat.completions.create]. *)
Record CompletionRequest : Type := {
  model : string;
  system_content : string;
  user_content : Prompt;
  max_tokens : Z;
  temperature : Q
}.

(** What awaiting the provider gives: the promise is rejected, or it is
    fulfilled and [completion.choices[0].message.content] is a string or
    [null]. *)
Inductive ProviderResult : Type :=
| Rejected (message : string)
| Completed (content : option string).

(** The object given to [res.json]. *)
Inductive Body : Type :=
| QuizBody (success : bool) (questions : list JValue) (topic : string)
    (batch : Z) (questionsInBatch : nat) (totalQuestions : Z)
    (hasMoreBatches : bool)
| ErrorBody (error : string) (details : option string).

Record Response : Type := {
  status : Z;
  body : Body
}.

(** The handler either answers at once or issues one provider call and
    answers from its result. *)
Inductive Handler : Type :=
| Respond (r : Response)
| Await (call : CompletionRequest) (k : ProviderResult -> Response).

(** Running a handler against a provider: the calls issued, and the
    response. *)
Definition run (provider : CompletionRequest -> ProviderResult)
    (h : Handler) : list CompletionRequest * Response :=
  match h with
  | Respond r => ([], r)
  | Await call k => ([call], k (provider call))
  end.

(** [!topic] and [!numQuestions] *)
Definition notString (x : option string) : bool :=
  match x with
  | Some s => String.eqb s ""
  | None => true
  end.

Definition notNumber (x : option Z) : bool :=
  match x with
  | Some n => Z.eqb n 0
  | None => true
  end.

(** Destructuring defaults: [batch = 1], [totalQuestions = numQuestions]. *)
Definition batchOf (req : Request) : Z :=
  match body_batch req with
  | Some b => b
  | None => 1
  end.

Definition totalOf (req : Request) (numQuestions : Z) : Z :=
  match body_totalQuestions req with
  | Some t => t
  | None => numQuestions
  end.

(** Line 34 (and 202). *)
Definition startingIdOf (batch : Z) : Z := (batch - 1) * 10 + 1.

Definition systemMessage : string :=
  "You are a quiz generator. Return only valid JSON arrays with no markdown formatting or extra text. Never add ```json``` or any other formatting around the JSON.".

Definition modelOf (v : Version) : string :=
  match v with
  | Basic => "gpt-4o"
  | Enterprise => "gpt-4.1-2025-04-14"
  end.

(** The question substituted when [JSON.parse] throws: lines 107-121 and
    lines 297-311. *)
Definition fallbackQuestion (v : Version) (topic : string) (startingId : Z)
    : JValue :=
  match v with
  | Basic =>
      JObj
        [ ("id", JInt 1);
          ("question", JStr ("What is a key concept in " ++ topic ++ "?"));
          ("options",
            JArr [ JStr "Basic understanding";
                   JStr "Advanced application";
                   JStr "Practical implementation";
                   JStr "Theoretical foundation" ]);
          ("correctAnswers", JArr [JInt 0]);
          ("multipleChoice", JBool false);
          ("difficulty", JStr "medium");
          ("explanation",
            JStr "This is a fundamental concept that requires understanding.");
          ("category", JStr topic) ]
  | Enterprise =>
      JObj
        [ ("id", JInt startingId);
          ("question",
            JStr ("In a production " ++ topic ++
                  " environment, what is the most critical factor when implementing a new feature under high traffic conditions?"));
          ("options",
            JArr [ JStr "Performance impact analysis and load testing";
                   JStr "Code review and documentation";
                   JStr "Feature flag implementation and gradual rollout";
                   JStr "Database schema migration strategy" ]);
          ("correctAnswers", JArr [JInt 2]);
          ("multipleChoice", JBool false);
          ("difficulty", JStr "hard");
          ("explanation",
            JStr "Feature flags allow safe deployment and quick rollback in production environments, minimizing risk during high traffic.");
          ("category", JStr topic) ]
  end.

Definition serverError (message : string) : Response :=
  {| status := 500;
     body := ErrorBody "Failed to generate quiz questions" (Some message) |}.

Definition badRequest : Response :=
  {| status := 400;
     body := ErrorBody "Topic and number of questions are required" None |}.

Section Handler.

(** [JSON.parse]; [None] when it throws a SyntaxError. *)
Variable JSON_parse : string -> option JValue.

(** Lines 99-122: parse, with the fallback array in the [catch]. *)
Definition parseQuestions (v : Version) (topic : string) (startingId : Z)
    (response : string) : JValue :=
  match JSON_parse response with
  | Some questions => questions
  | None => JArr [fallbackQuestion v topic startingId]
  end.

(** Lines 83-149 inside the [try]: from the provider's result to the
    success response, or a throw. *)
Definition afterCompletion (v : Version) (topic : string)
    (batch totalQuestions startingId : Z) (result : ProviderResult)
    : Exc Response :=
  content <-
    match result with
    | Rejected message => Throw message
    | Completed None => Throw "Cannot read properties of null (reading 'trim')"
    | Completed (Some content) => Ok content
    end ;;
  let response := cleanResponse content in
  let questions := parseQuestions v topic startingId response in
  match questions with
  | JArr ((_ :: _) as qs) =>
      validated <- validatedQuestions topic startingId qs ;;
      Ok {| status := 200;
            body := QuizBody true validated topic batch (List.length validated)
                      totalQuestions (Z.ltb (batch * 10) totalQuestions) |}
  | _ => Throw "Invalid question format received"
  end.

(** The [catch] of lines 151-157. *)
Definition catchAll (r : Exc Response) : Response :=
  match r with
  | Ok res => res
  | Throw message => serverError message
  end.

(** The handler of [POST /api/generate-quiz]. *)
Definition generateQuiz (v : Version) (req : Request) : Handler :=
  if (notString (body_topic req) || notNumber (body_numQuestions req))%bool
  then Respond badRequest
  else
    match body_topic req, body_numQuestions req with
    | Some topic, Some numQuestions =>
        let batch := batchOf req in
        let totalQuestions := totalOf req numQuestions in
        let limitedQuestions := Z.min numQuestions 10 in
        let startingId := startingIdOf batch in
        let prompt :=
          {| prompt_version := v;
             prompt_limitedQuestions := limitedQuestions;
             prompt_topic := topic;
             prompt_batch := batch;
             prompt_startingId := startingId;
             prompt_lastId := startingId + limitedQuestions - 1 |} in
        Await
          {| model := modelOf v;
             system_content := systemMessage;
             user_content := prompt;
             max_tokens := 3000;
             temperature := (3 # 10)%Q |}
          (fun result =>
             catchAll
               (afterCompletion v topic batch totalQuestions startingId result))
    | _, _ => Respond badRequest
    end.

(** The response to [req] when the provider replies with the text
    [reply], and the provider calls issued on the way. *)
Definition serve (v : Version) (req : Request) (reply : string)
    : list CompletionRequest * Response :=
  run (fun _ => Completed (Some reply)) (generateQuiz v req).

Definition responseTo (v : Version) (req : Request) (reply : string)
    : Response :=
  snd (serve v req reply).

End Handler.

(** ** A JSON parser

    [json_parse] reads a text by the JSON grammar, as [JSON.parse] does
    with no reviver: white space is SP, TAB, LF and CR; a string holds no
    raw control character; a number has no leading zero; nothing but white
    space follows the value; a member given twice keeps its first place and
    its last value.  Numbers are read exactly.  The recursion is bounded
    by twice the length of the text plus two, which is more than the number
    of nested values and of elements a text of that length can hold.  A [\u] escape
    above 00FF names a code unit outside the alphabet of the model and is
    not read. *)

Definition DQUOTE : ascii := "034"%char.

Definition isJsonSpace (c : ascii) : bool :=
  let n := nat_of_ascii c in
  (Nat.eqb n 32 || Nat.eqb n 9 || Nat.eqb n 10 || Nat.eqb n 13)%bool.

Fixpoint skipSpace (s : string) : string :=
  match s with
  | String c r => if isJsonSpace c then skipSpace r else s
  | EmptyString => EmptyString
  end.

Definition isDigit (c : ascii) : bool :=
  let n := nat_of_ascii c in (Nat.leb 48 n && Nat.leb n 57)%bool.

Definition digitOf (c : ascii) : Z := Z.of_nat (nat_of_ascii c) - 48.

(** Reads the longest run of digits: its value continuing [acc], how many
    digits were read, and the rest. *)
Fixpoint readDigits (acc : Z) (count : nat) (s : string) : Z * nat * string :=
  match s with
  | String c r =>
      if isDigit c then readDigits (acc * 10 + digitOf c) (S count) r
      else (acc, count, s)
  | EmptyString => (acc, count, s)
  end.

Definition hexOf (c : ascii) : option Z :=
  let n := nat_of_ascii c in
  if (Nat.leb 48 n && Nat.leb n 57)%bool then Some (Z.of_nat n - 48)
  else if (Nat.leb 65 n && Nat.leb n 70)%bool then Some (Z.of_nat n - 55)
  else if (Nat.leb 97 n && Nat.leb n 102)%bool then Some (Z.of_nat n - 87)
  else None.

Definition readHex4 (s : string) : option (Z * string) :=
  match s with
  | String a (String b (String c (String d r))) =>
      match hexOf a, hexOf b, hexOf c, hexOf d with
      | Some x, Some y, Some z, Some w =>
          Some (((x * 16 + y) * 16 + z) * 16 + w, r)
      | _, _, _, _ => None
      end
  | _ => None
  end.

Definition escapeOf (c : ascii) : option ascii :=
  if Ascii.eqb c DQUOTE then Some DQUOTE
  else if Ascii.eqb c "\" then Some "\"%char
  else if Ascii.eqb c "/" then Some "/"%char
  else if Ascii.eqb c "b" then Some "008"%char
  else if Ascii.eqb c "f" then Some "012"%char
  else if Ascii.eqb c "n" then Some "010"%char
  else if Ascii.eqb c "r" then Some "013"%char
  else if Ascii.eqb c "t" then Some "009"%char
  else None.

(** The characters of a string literal, after its opening quote. *)
Fixpoint readChars (fuel : nat) (s : string) : option (string * string) :=
  match fuel with
  | O => None
  | S fuel' =>
      match s with
      | EmptyString => None
      | String c r =>
          if Ascii.eqb c DQUOTE then Some (EmptyString, r)
          else if Ascii.eqb c "\" then
            match r with
            | String e r' =>
                if Ascii.eqb e "u" then
                  match readHex4 r' with
                  | Some (u, r'') =>
                      if Z.ltb u 256 then
                        match readChars fuel' r'' with
                        | Some (t, rest) =>
                            Some (String (ascii_of_nat (Z.to_nat u)) t, rest)
                        | None => None
                        end
                      else None
                  | None => None
                  end
                else
                  match escapeOf e with
                  | Some x =>
                      match readChars fuel' r' with
                      | Some (t, rest) => Some (String x t, rest)
                      | None => None
                      end
                  | None => None
                  end
            | EmptyString => None
            end
          else if Nat.ltb (nat_of_ascii c) 32 then None
          else
            match readChars fuel' r with
            | Some (t, rest) => Some (String c t, rest)
            | None => None
            end
      end
  end.

Definition readString (s : string) : option (string * string) :=
  readChars (S (String.length s)) s.

(** [m * 10^e], exactly. *)
Definition decimal (m e : Z) : Q :=
  if Z.leb 0 e then inject_Z (m * 10 ^ e)
  else Qred (Qmake m (Z.to_pos (10 ^ (- e)))).

Definition readFraction (m : Z) (s : string) : option (Z * nat * string) :=
  match s with
  | String c r =>
      if Ascii.eqb c "." then
        match readDigits m 0 r with
        | (_, O, _) => None
        | (m', k, rest) => Some (m', k, rest)
        end
      else Some (m, O, s)
  | EmptyString => Some (m, O, s)
  end.

Definition readExponent (s : string) : option (Z * string) :=
  match s with
  | String c r =>
      if (Ascii.eqb c "e" || Ascii.eqb c "E")%bool then
        let (negative, r1) :=
          match r with
          | String g r' =>
              if Ascii.eqb g "-" then (true, r')
              else if Ascii.eqb g "+" then (false, r')
              else (false, r)
          | EmptyString => (false, r)
          end in
        match readDigits 0 0 r1 with
        | (_, O, _) => None
        | (e, _, rest) => Some (if negative then - e else e, rest)
        end
      else Some (0, s)
  | EmptyString => Some (0, s)
  end.

(** A number, after its optional minus sign. *)
Definition readUnsigned (s : string) : option (Q * string) :=
  match s with
  | String c r =>
      if isDigit c then
        let '(i, _, r1) :=
          if Ascii.eqb c "0" then (0, 1%nat, r) else readDigits 0 0 s in
        match readFraction i r1 with
        | Some (m, k, r2) =>
            match readExponent r2 with
            | Some (e, r3) => Some (decimal m (e - Z.of_nat k), r3)
            | None => None
            end
        | None => None
        end
      else None
  | EmptyString => None
  end.

Definition readNumber (s : string) : option (Q * string) :=
  match s with
  | String c r =>
      if Ascii.eqb c "-" then
        match readUnsigned r with
        | Some (q, rest) => Some (Qopp q, rest)
        | None => None
        end
      else readUnsigned s
  | EmptyString => None
  end.

Definition readWord (w : string) (v : JValue) (s : string)
    : option (JValue * string) :=
  if prefix w s then Some (v, dropChars (String.length w) s) else None.

Fixpoint setMember (k : string) (v : JValue) (members : list (string * JValue))
    : list (string * JValue) :=
  match members with
  | [] => [(k, v)]
  | (k', v') :: r =>
      if String.eqb k k' then (k', v) :: r else (k', v') :: setMember k v r
  end.

Fixpoint readValue (fuel : nat) (s : string) : option (JValue * string) :=
  match fuel with
  | O => None
  | S fuel' =>
      match skipSpace s with
      | EmptyString => None
      | String c r =>
          if Ascii.eqb c "[" then
            match skipSpace r with
            | String c' r' =>
                if Ascii.eqb c' "]" then Some (JArr [], r')
                else readElements fuel' r []
            | EmptyString => None
            end
          else if Ascii.eqb c "{" then
            match skipSpace r with
            | String c' r' =>
                if Ascii.eqb c' "}" then Some (JObj [], r')
                else readMembers fuel' r []
            | EmptyString => None
            end
          else if Ascii.eqb c DQUOTE then
            match readString r with
            | Some (t, rest) => Some (JStr t, rest)
            | None => None
            end
          else if Ascii.eqb c "t" then readWord "true" (JBool true) (String c r)
          else if Ascii.eqb c "f" then readWord "false" (JBool false) (String c r)
          else if Ascii.eqb c "n" then readWord "null" JNull (String c r)
          else
            match readNumber (String c r) with
            | Some (q, rest) => Some (JNum q, rest)
            | None => None
            end
      end
  end
with readElements (fuel : nat) (s : string) (seen : list JValue)
    : option (JValue * string) :=
  match fuel with
  | O => None
  | S fuel' =>
      match readValue fuel' s with
      | Some (v, r) =>
          match skipSpace r with
          | String c r' =>
              if Ascii.eqb c "," then readElements fuel' r' (seen ++ [v])
              else if Ascii.eqb c "]" then Some (JArr (seen ++ [v]), r')
              else None
          | EmptyString => None
          end
      | None => None
      end
  end
with readMembers (fuel : nat) (s : string) (seen : list (string * JValue))
    : option (JValue * string) :=
  match fuel with
  | O => None
  | S fuel' =>
      match skipSpace s with
      | String q r =>
          if Ascii.eqb q DQUOTE then
            match readString r with
            | Some (k, r1) =>
                match skipSpace r1 with
                | String c r2 =>
                    if Ascii.eqb c ":" then
                      match readValue fuel' r2 with
                      | Some (v, r3) =>
                          match skipSpace r3 with
                          | String d r4 =>
                              if Ascii.eqb d "," then
                                readMembers fuel' r4 (setMember k v seen)
                              else if Ascii.eqb d "}" then
                                Some (JObj (setMember k v seen), r4)
                              else None
                          | EmptyString => None
                          end
                      | None => None
                      end
                    else None
                | EmptyString => None
                end
            | None => None
            end
          else None
      | EmptyString => None
      end
  end.

Definition json_parse (text : string) : option JValue :=
  match readValue (2 * String.length text + 2) text with
  | Some (v, rest) =>
      match skipSpace rest with
      | EmptyString => Some v
      | String _ _ => None
      end
  | None => None
  end.

(** ** Reading a response *)

(** The guard of line 25 lets the request through. *)
Definition passesValidation (req : Request) : bool :=
  negb (notString (body_topic req) || notNumber (body_numQuestions req)).

Definition questionsOf (r : Response) : list JValue :=
  match body r with
  | QuizBody _ questions _ _ _ _ _ => questions
  | ErrorBody _ _ => []
  end.

Definition successOf (r : Response) : option bool :=
  match body r with
  | QuizBody success _ _ _ _ _ _ => Some success
  | ErrorBody _ _ => None
  end.

Definition hasMoreBatchesOf (r : Response) : option bool :=
  match body r with
  | QuizBody _ _ _ _ _ _ more => Some more
  | ErrorBody _ _ => None
  end.

(** A member of a returned question. *)
Definition member (k : string) (q : JValue) : option JValue :=
  match q with
  | JObj members => lookup k members
  | _ => None
  end.

(** A reply wrapped in a [```json] fence, and in a bare fence. *)
Definition jsonFence (text : string) : string :=
  "```json" ++ nl ++ text ++ nl ++ "```".

Definition bareFence (text : string) : string :=
  "```" ++ nl ++ text ++ nl ++ "```".

(** ** Per-question defaulting, as a function *)

Definition notNull (q : JValue) : bool :=
  match q with
  | JNull => false
  | _ => true
  end.

(** What [validateQuestion] returns on an element that is not [null]. *)
Definition withDefaults (topic : string) (startingId : Z)
    (q : JValue) (index : nat) : JValue :=
  JObj
    [ ("id", orElse (member "id" q) (JInt (startingId + Z.of_nat index)));
      ("question", orElse (member "question" q) (JStr ""));
      ("options", arrayOr (member "options" q) []);
      ("correctAnswers", arrayOr (member "correctAnswers" q) [JInt 0]);
      ("multipleChoice", orElse (member "multipleChoice" q) (JBool false));
      ("difficulty", orElse (member "difficulty" q) (JStr "medium"));
      ("explanation", orElse (member "explanation" q) (JStr ""));
      ("category", orElse (member "category" q) (JStr topic)) ].

Fixpoint defaultsFrom (topic : string) (startingId : Z) (index : nat)
    (questions : list JValue) : list JValue :=
  match questions with
  | [] => []
  | q :: rest =>
      withDefaults topic startingId q index
      :: defaultsFrom topic startingId (S index) rest
  end.

(** ** Predicates on decoded elements and returned records *)

(** The element is not [null] and has no [id] member. *)
Definition hasNoId (q : JValue) : bool :=
  notNull q &&
  match member "id" q with
  | None => true
  | Some _ => false
  end.

(** [c] is a natural number below the length of [options]. *)
Definition isIndexInto (options : list JValue) (c : JValue) : bool :=
  match c with
  | JNum q =>
      Pos.eqb (Qden q) 1 && Z.leb 0 (Qnum q)
      && Z.ltb (Qnum q) (Z.of_nat (List.length options))
  | _ => false
  end.

(** Both fields are arrays and every element of [correctAnswers] is an
    index into [options]. *)
Definition indicesValid (q : JValue) : bool :=
  match member "options" q, member "correctAnswers" q with
  | Some (JArr options), Some (JArr correctAnswers) =>
      forallb (isIndexInto options) correctAnswers
  | _, _ => false
  end.

(** ** Sample requests and texts *)

Definition VT : ascii := "011"%char.

(** [{topic: "graphs", numQuestions: 25, batch: 2, totalQuestions: 25}] *)
Definition graphsBatch2 : Request :=
  {| body_topic := Some "graphs";
     body_numQuestions := Some 25;
     body_batch := Some 2;
     body_totalQuestions := Some 25 |}.

(** [{topic: "graphs", numQuestions: 5}] *)
Definition graphsFive : Request :=
  {| body_topic := Some "graphs";
     body_numQuestions := Some 5;
     body_batch := None;
     body_totalQuestions := None |}.

(** [{topic: "graphs", numQuestions: -5}] *)
Definition graphsMinusFive : Request :=
  {| body_topic := Some "graphs";
     body_numQuestions := Some (-5);
     body_batch := None;
     body_totalQuestions := None |}.

(** [{numQuestions: 5}] *)
Definition noTopic : Request :=
  {| body_topic := None;
     body_numQuestions := Some 5;
     body_batch := None;
     body_totalQuestions := None |}.

(** ** Shapes of records and replies *)

(** [s.endsWith(suffix)] *)
Fixpoint endsWith (s suffix : string) : bool :=
  (String.eqb s suffix ||
   match s with
   | String _ r => endsWith r suffix
   | EmptyString => false
   end)%bool.

(** The keys of the object literal of lines 130-139, in its order. *)
Definition recordKeys : list string :=
  [ "id"; "question"; "options"; "correctAnswers"; "multipleChoice";
    "difficulty"; "explanation"; "category" ].

Fixpoint sameKeys (keys : list string) (members : list (string * JValue))
    : bool :=
  match keys, members with
  | [], [] => true
  | k :: keys', (k', _) :: members' => String.eqb k k' && sameKeys keys' members'
  | _, _ => false
  end.

Definition isArrayMember (k : string) (q : JValue) : bool :=
  match member k q with
  | Some (JArr _) => true
  | _ => false
  end.

(** An object with exactly the eight keys, in order, whose [options] and
    [correctAnswers] are arrays. *)
Definition recordShaped (r : JValue) : bool :=
  match r with
  | JObj members =>
      sameKeys recordKeys members
      && isArrayMember "options" r && isArrayMember "correctAnswers" r
  | _ => false
  end.

Definition truthyMember (k : string) (q : JValue) : bool :=
  match member k q with
  | Some w => truthy w
  | None => false
  end.

(** A record-shaped element whose other members are truthy
    ([multipleChoice] may also be [false]). *)
Definition wellFormed (q : JValue) : bool :=
  recordShaped q
  && truthyMember "id" q && truthyMember "question" q
  && match member "multipleChoice" q with
     | Some (JBool _) => true
     | Some w => truthy w
     | None => false
     end
  && truthyMember "difficulty" q && truthyMember "explanation" q
  && truthyMember "category" q.




(** The argument of [res.json] at lines 141-149. *)
Definition successResponse (topic : string) (batch totalQuestions : Z)
    (validated : list JValue) : Response :=
  {| status := 200;
     body := QuizBody true validated topic batch (List.length validated)
               totalQuestions (Z.ltb (batch * 10) totalQuestions) |}.

(** The response of an accepted request, by cases on the value of
    [questions] after the [try]/[catch] of lines 99-122. *)
Definition responseFor (topic : string) (batch totalQuestions startingId : Z)
    (questions : JValue) : Response :=
  match questions with
  | JArr ((_ :: _) as qs) =>
      if forallb notNull qs
      then successResponse topic batch totalQuestions
             (defaultsFrom topic startingId 0 qs)
      else serverError "Cannot read properties of null (reading 'id')"
  | _ => serverError "Invalid question format received"
  end.

(** Providers that fail. *)
Definition rateLimited : CompletionRequest -> ProviderResult :=
  fun _ => Rejected "429 Rate limit reached".

Definition refusing : CompletionRequest -> ProviderResult :=
  fun _ => Completed None.

(** A well-formed question, and the reply text that holds it. *)
Definition sampleQuestion : JValue :=
  JObj
    [ ("id", JInt 42);
      ("question", JStr "What is a tree?");
      ("options", JArr [JStr "A graph"; JStr "A list"]);
      ("correctAnswers", JArr [JInt 0]);
      ("multipleChoice", JBool false);
      ("difficulty", JStr "easy");
      ("explanation", JStr "Acyclic.");
      ("category", JStr "graphs") ].

Definition quoted (s : string) : string :=
  String DQUOTE (s ++ String DQUOTE "").

Definition sampleReply : string :=
  "[{" ++ quoted "id" ++ ": 42, "
  ++ quoted "question" ++ ": " ++ quoted "What is a tree?" ++ ", "
  ++ quoted "options" ++ ": [" ++ quoted "A graph" ++ ", "
  ++ quoted "A list" ++ "], "
  ++ quoted "correctAnswers" ++ ": [0], "
  ++ quoted "multipleChoice" ++ ": false, "
  ++ quoted "difficulty" ++ ": " ++ quoted "easy" ++ ", "
  ++ quoted "explanation" ++ ": " ++ quoted "Acyclic." ++ ", "
  ++ quoted "category" ++ ": " ++ quoted "graphs" ++ "}]".

(** ** Numbers the code computes exactly

    The model computes in exact integers, the code in binary64, which is
    exact as long as every operand and every result is a safe integer
    ([Number.isSafeInteger]).  A statement about the value of an arithmetic
    expression of the handler carries that condition for the steps of the
    expression. *)

Definition MAX_SAFE_INTEGER : Z := 2 ^ 53 - 1.

Definition isSafeInteger (z : Z) : bool :=
  Z.leb (- MAX_SAFE_INTEGER) z && Z.leb z MAX_SAFE_INTEGER.

(** The steps of [(batch - 1) * 10 + 1 + index], for the indices below
    [count]: [batch - 1] and the sums lie between the values tested. *)
Definition idsExact (batch : Z) (count : nat) : bool :=
  isSafeInteger batch
  && isSafeInteger ((batch - 1) * 10)
  && isSafeInteger ((batch - 1) * 10 + 1 + Z.of_nat count).

(** The steps of [batch * 10 < totalQuestions]. *)
Definition flagExact (batch totalQuestions : Z) : bool :=
  isSafeInteger (batch * 10) && isSafeInteger totalQuestions.

(** The steps of [Math.min(numQuestions, 10)], of [(batch - 1) * 10 + 1]
    and of [startingId + limitedQuestions - 1]. *)
Definition promptExact (batch numQuestions : Z) : bool :=
  isSafeInteger numQuestions
  && isSafeInteger batch
  && isSafeInteger ((batch - 1) * 10)
  && isSafeInteger ((batch - 1) * 10 + 1)
  && isSafeInteger ((batch - 1) * 10 + 1 + Z.min numQuestions 10)
  && isSafeInteger ((batch - 1) * 10 + 1 + Z.min numQuestions 10 - 1).

(** [{topic: "graphs", numQuestions: 10, batch: 2, totalQuestions: 25}] *)
Definition secondOfThree : Request :=
  {| body_topic := Some "graphs";
     body_numQuestions := Some 10;
     body_batch := Some 2;
     body_totalQuestions := Some 25 |}.

(** [{topic: "graphs", numQuestions: 10, batch: 3, totalQuestions: 25}] *)
Definition thirdOfThree : Request :=
  {| body_topic := Some "graphs";
     body_numQuestions := Some 10;
     body_batch := Some 3;
     body_totalQuestions := Some 25 |}.

(** ** The handler on an accepted request *)

Section Accepted.

Variable JSON_parse : string -> option JValue.
Variable v : Version.
Variable req : Request.
Variable topic : string.
Variable numQuestions : Z.
Hypothesis Htopic : body_topic req = Some topic.
Hypothesis HnumQuestions : body_numQuestions req = Some numQuestions.
Hypothesis Hvalid : passesValidation req = true.

Lemma generateQuiz_accepted :
  exists call,
    generateQuiz JSON_parse v req =
    Await call
      (fun result =>
         catchAll
           (afterCompletion JSON_parse v topic (batchOf req)
              (totalOf req numQuestions) (startingIdOf (batchOf req)) result)).
Proof.
  unfold generateQuiz.
  unfold passesValidation in Hvalid.
  apply negb_true_iff in Hvalid.
  rewrite Hvalid, Htopic, HnumQuestions.
  eexists. reflexivity.
Qed.

Lemma responseTo_accepted (reply : string) :
  responseTo JSON_parse v req reply =
  catchAll
    (afterCompletion JSON_parse v topic (batchOf req)
       (totalOf req numQuestions) (startingIdOf (batchOf req))
       (Completed (Some reply))).
Proof.
  unfold responseTo, serve.
  destruct generateQuiz_accepted as [call ->].
  reflexivity.
Qed.

(** The three ways an accepted request ends, by what the parser says of
    the cleaned reply. *)
Lemma responseTo_parsed_array (reply : string) (q : JValue) (qs : list JValue) :
  JSON_parse (cleanResponse reply) = Some (JArr (q :: qs)) ->
  responseTo JSON_parse v req reply =
  catchAll
    (validated <-
       validatedQuestions topic (startingIdOf (batchOf req)) (q :: qs) ;;
     Ok {| status := 200;
           body := QuizBody true validated topic (batchOf req)
                     (List.length validated) (totalOf req numQuestions)
                     (Z.ltb (batchOf req * 10) (totalOf req numQuestions)) |}).
Proof.
  intros Hp. rewrite responseTo_accepted.
  unfold afterCompletion, parseQuestions. simpl. rewrite Hp. reflexivity.
Qed.

Lemma responseTo_parsed_other (reply : string) (value : JValue) :
  JSON_parse (cleanResponse reply) = Some value ->
  isArray value = false \/ value = JArr [] ->
  responseTo JSON_parse v req reply =
  serverError "Invalid question format received".
Proof.
  intros Hp Hshape. rewrite responseTo_accepted.
  unfold afterCompletion, parseQuestions. simpl. rewrite Hp.
  destruct Hshape as [Hna | ->]; [| reflexivity].
  destruct value; try reflexivity. discriminate.
Qed.

Lemma responseTo_unparsed (reply : string) :
  JSON_parse (cleanResponse reply) = None ->
  responseTo JSON_parse v req reply =
  catchAll
    (validated <-
       validatedQuestions topic (startingIdOf (batchOf req))
         [fallbackQuestion v topic (startingIdOf (batchOf req))] ;;
     Ok {| status := 200;
           body := QuizBody true validated topic (batchOf req)
                     (List.length validated) (totalOf req numQuestions)
                     (Z.ltb (batchOf req * 10) (totalOf req numQuestions)) |}).
Proof.
  intros Hp. rewrite responseTo_accepted.
  unfold afterCompletion, parseQuestions. simpl. rewrite Hp. reflexivity.
Qed.

End Accepted.

(** ** Fence stripping *)

Lemma prefix_append (p s : string) : prefix p (p ++ s) = true.
Proof.
  induction p as [| a p IH]; simpl.
  - destruct s; reflexivity.
  - destruct (ascii_dec a a) as [_ | Hne]; [exact IH | contradiction].
Qed.

Lemma prefix_shorter (p q s : string) :
  prefix (p ++ q) s = true -> prefix p s = true.
Proof.
  revert s. induction p as [| a p IH]; intros s H.
  - destruct s; reflexivity.
  - destruct s as [| b s]; simpl in *; [discriminate |].
    destruct (ascii_dec a b); [apply IH; exact H | discriminate].
Qed.

Lemma isClosing_long (s : string) :
  (4 < String.length s)%nat -> isClosing s = false.
Proof.
  intros Hlen. unfold isClosing.
  apply orb_false_iff; split; apply String.eqb_neq; intros ->;
    simpl in Hlen; lia.
Qed.

Lemma length_append (s t : string) :
  String.length (s ++ t) = (String.length s + String.length t)%nat.
Proof.
  induction s as [| a s IH]; simpl; [reflexivity | now rewrite IH].
Qed.

(** The closing fence of a wrapped text is what [/\n?```$/] removes. *)
Lemma replaceClosing_wrapped (text : string) :
  replaceClosing (text ++ nl ++ "```") = text.
Proof.
  induction text as [| a text IH].
  - reflexivity.
  - change (replaceClosing (String a (text ++ nl ++ "```")) = String a text).
    cbn [replaceClosing]. rewrite isClosing_long.
    + fold replaceClosing. now rewrite IH.
    + simpl. rewrite length_append. simpl. lia.
Qed.

Lemma trimEnd_cons (c : ascii) (s : string) :
  isWhiteSpace c = false -> trimEnd (String c s) = String c (trimEnd s).
Proof.
  intros Hc. simpl. rewrite Hc. destruct (trimEnd s); reflexivity.
Qed.

Lemma trimEnd_wrapped (text : string) :
  trimEnd (text ++ nl ++ "```") = text ++ nl ++ "```".
Proof.
  induction text as [| a text IH].
  - reflexivity.
  - change (trimEnd (String a (text ++ nl ++ "```")) =
            String a (text ++ nl ++ "```")).
    cbn [trimEnd]. rewrite IH.
    destruct text; reflexivity.
Qed.

Lemma trim_bareFence (text : string) : trim (bareFence text) = bareFence text.
Proof.
  unfold trim.
  replace (trimStart (bareFence text)) with (bareFence text) by reflexivity.
  change (bareFence text) with (("```" ++ nl ++ text) ++ nl ++ "```").
  apply trimEnd_wrapped.
Qed.

Lemma trim_jsonFence (text : string) : trim (jsonFence text) = jsonFence text.
Proof.
  unfold trim.
  replace (trimStart (jsonFence text)) with (jsonFence text) by reflexivity.
  change (jsonFence text) with (("```json" ++ nl ++ text) ++ nl ++ "```").
  apply trimEnd_wrapped.
Qed.

Lemma cleanResponse_bareFence (text : string) :
  cleanResponse (bareFence text) = text.
Proof.
  unfold cleanResponse. rewrite trim_bareFence.
  replace (startsWith (bareFence text) "```json") with false by reflexivity.
  replace (startsWith (bareFence text) "```") with true by reflexivity.
  replace (replaceOpening "```" (bareFence text))
    with (text ++ nl ++ "```") by reflexivity.
  apply replaceClosing_wrapped.
Qed.

Lemma cleanResponse_jsonFence (text : string) :
  startsWith text "```" = false ->
  cleanResponse (jsonFence text) = text.
Proof.
  intros Hno.
  unfold cleanResponse. rewrite trim_jsonFence.
  replace (startsWith (jsonFence text) "```json") with true by reflexivity.
  replace (replaceOpening "```json" (jsonFence text))
    with (text ++ nl ++ "```") by reflexivity.
  rewrite replaceClosing_wrapped, Hno. reflexivity.
Qed.

Lemma cleanResponse_plain (text : string) :
  startsWith (trim text) "```" = false ->
  cleanResponse text = trim text.
Proof.
  intros Hno. unfold cleanResponse.
  destruct (startsWith (trim text) "```json") eqn:Hj.
  - unfold startsWith in *.
    apply (prefix_shorter "```" "json") in Hj. congruence.
  - rewrite Hno. reflexivity.
Qed.

Lemma prefix_true (p s : string) :
  prefix p s = true -> exists r, s = p ++ r.
Proof.
  revert s. induction p as [| a p IH]; intros s H.
  - exists s. reflexivity.
  - destruct s as [| b s]; cbn [prefix] in H; [discriminate |].
    destruct (ascii_dec a b) as [-> |]; [| discriminate].
    destruct (IH _ H) as [r ->]. exists r. reflexivity.
Qed.

(** A text that opens with a fence still does after trimming. *)
Lemma startsWith_fence_trim (text : string) :
  startsWith text "```" = true -> startsWith (trim text) "```" = true.
Proof.
  unfold startsWith, trim. intros H.
  destruct (prefix_true _ _ H) as [r ->].
  replace (trimStart ("```" ++ r)) with (String "`" (String "`" (String "`" r)))
    by reflexivity.
  rewrite !trimEnd_cons by reflexivity.
  apply (prefix_append "```").
Qed.

(** ** The parser on texts that are not JSON *)

(** The sample texts that are not JSON are refused at their first
    character, whatever the fuel: the failure is one of syntax. *)
Lemma not_json_whatever_fuel (fuel : nat) :
  readValue fuel "Sorry, I cannot do that." = None /\
  readValue fuel ("json" ++ nl ++ "[1]") = None /\
  readValue fuel (String VT "[1]") = None.
Proof.
  destruct fuel; repeat split; reflexivity.
Qed.

(** ** Per-question defaulting *)

Section Defaulting.

Variable topic : string.
Variable startingId : Z.

Lemma validateQuestion_notNull (q : JValue) (index : nat) :
  notNull q = true ->
  validateQuestion topic startingId q index =
  Ok (withDefaults topic startingId q index).
Proof.
  destruct q; intros H; try discriminate; reflexivity.
Qed.

Lemma validateQuestion_null (index : nat) :
  validateQuestion topic startingId JNull index =
  Throw "Cannot read properties of null (reading 'id')".
Proof. reflexivity. Qed.

Lemma mapFrom_notNull (questions : list JValue) :
  forall index,
    forallb notNull questions = true ->
    mapFrom (validateQuestion topic startingId) index questions =
    Ok (defaultsFrom topic startingId index questions).
Proof.
  induction questions as [| q rest IH]; intros index H.
  - reflexivity.
  - cbn [forallb] in H. apply andb_true_iff in H. destruct H as [Hq Hrest].
    cbn [mapFrom defaultsFrom].
    rewrite (validateQuestion_notNull _ _ Hq). cbn [bind].
    rewrite (IH _ Hrest). reflexivity.
Qed.

Lemma mapFrom_Ok (questions : list JValue) :
  forall index validated,
    mapFrom (validateQuestion topic startingId) index questions = Ok validated ->
    forallb notNull questions = true /\
    validated = defaultsFrom topic startingId index questions.
Proof.
  induction questions as [| q rest IH]; intros index validated H.
  - cbn in H. injection H as <-. split; reflexivity.
  - cbn [mapFrom] in H.
    destruct q;
      try (rewrite validateQuestion_notNull in H by reflexivity;
           cbn [bind] in H;
           destruct (mapFrom (validateQuestion topic startingId) (S index) rest)
             as [vs | e] eqn:Hrest; cbn [bind] in H; [| discriminate];
           injection H as <-;
           destruct (IH _ _ Hrest) as [Hall ->];
           split; [exact Hall | reflexivity]).
    discriminate.
Qed.

Lemma orElse_again (x : option JValue) (d : JValue) :
  orElse (Some (orElse x d)) d = orElse x d.
Proof.
  destruct x as [w |]; cbn [orElse].
  - destruct (truthy w) eqn:Hw.
    + now rewrite Hw.
    + now destruct (truthy d).
  - now destruct (truthy d).
Qed.

Lemma arrayOr_again (x : option JValue) (d : list JValue) :
  arrayOr (Some (arrayOr x d)) d = arrayOr x d.
Proof.
  destruct x as [[| | | | l |] |]; reflexivity.
Qed.

Lemma withDefaults_again (q : JValue) (index : nat) :
  withDefaults topic startingId (withDefaults topic startingId q index) index =
  withDefaults topic startingId q index.
Proof.
  unfold withDefaults at 1.
  replace (member "id" (withDefaults topic startingId q index))
    with (Some (orElse (member "id" q) (JInt (startingId + Z.of_nat index))))
    by reflexivity.
  replace (member "question" (withDefaults topic startingId q index))
    with (Some (orElse (member "question" q) (JStr ""))) by reflexivity.
  replace (member "options" (withDefaults topic startingId q index))
    with (Some (arrayOr (member "options" q) [])) by reflexivity.
  replace (member "correctAnswers" (withDefaults topic startingId q index))
    with (Some (arrayOr (member "correctAnswers" q) [JInt 0])) by reflexivity.
  replace (member "multipleChoice" (withDefaults topic startingId q index))
    with (Some (orElse (member "multipleChoice" q) (JBool false)))
    by reflexivity.
  replace (member "difficulty" (withDefaults topic startingId q index))
    with (Some (orElse (member "difficulty" q) (JStr "medium"))) by reflexivity.
  replace (member "explanation" (withDefaults topic startingId q index))
    with (Some (orElse (member "explanation" q) (JStr ""))) by reflexivity.
  replace (member "category" (withDefaults topic startingId q index))
    with (Some (orElse (member "category" q) (JStr topic))) by reflexivity.
  rewrite !orElse_again, !arrayOr_again. reflexivity.
Qed.

Lemma defaultsFrom_again (questions : list JValue) :
  forall index,
    defaultsFrom topic startingId index
      (defaultsFrom topic startingId index questions) =
    defaultsFrom topic startingId index questions.
Proof.
  induction questions as [| q rest IH]; intros index.
  - reflexivity.
  - cbn [defaultsFrom]. now rewrite withDefaults_again, IH.
Qed.

Lemma defaultsFrom_notNull (questions : list JValue) :
  forall index,
    forallb notNull (defaultsFrom topic startingId index questions) = true.
Proof.
  induction questions as [| q rest IH]; intros index.
  - reflexivity.
  - cbn [defaultsFrom forallb]. rewrite IH. reflexivity.
Qed.

Lemma defaultsFrom_length (questions : list JValue) :
  forall index,
    List.length (defaultsFrom topic startingId index questions) =
    List.length questions.
Proof.
  induction questions as [| q rest IH]; intros index; cbn.
  - reflexivity.
  - now rewrite IH.
Qed.

End Defaulting.

Lemma passesValidation_fields (req : Request) :
  passesValidation req = true ->
  exists topic numQuestions,
    body_topic req = Some topic /\ body_numQuestions req = Some numQuestions.
Proof.
  unfold passesValidation, notString, notNumber. intros H.
  destruct (body_topic req) as [topic |]; [| discriminate].
  destruct (body_numQuestions req) as [n |].
  - exists topic, n. split; reflexivity.
  - rewrite orb_true_r in H. discriminate.
Qed.

Lemma generateQuiz_rejected (parse : string -> option JValue) (v : Version)
    (req : Request) :
  passesValidation req = false ->
  generateQuiz parse v req = Respond badRequest.
Proof.
  unfold passesValidation, generateQuiz. intros H.
  apply negb_false_iff in H. rewrite H. reflexivity.
Qed.

(** The response depends on the reply only through what the parser makes
    of the cleaned text. *)
Lemma responseTo_same_parse (parse : string -> option JValue) (v : Version)
    (req : Request) (reply1 reply2 : string) :
  parse (cleanResponse reply1) = parse (cleanResponse reply2) ->
  responseTo parse v req reply1 = responseTo parse v req reply2.
Proof.
  intros H. unfold responseTo, serve, generateQuiz.
  destruct (notString (body_topic req) || notNumber (body_numQuestions req))%bool;
    [reflexivity |].
  destruct (body_topic req); [| reflexivity].
  destruct (body_numQuestions req); [| reflexivity].
  cbn [run snd]. unfold afterCompletion, parseQuestions. cbn [bind].
  rewrite H. reflexivity.
Qed.

(** ** Input validation *)

(** C4, as amended: when [topic] is absent or empty, or [numQuestions] is
    absent or zero, the handler answers 400 with its error message and
    issues no provider call, whatever the provider would have replied. *)
Theorem missing_field_is_rejected (parse : string -> option JValue)
    (v : Version) (req : Request)
    (provider : CompletionRequest -> ProviderResult) :
  body_topic req = None \/ body_topic req = Some "" \/
  body_numQuestions req = None \/ body_numQuestions req = Some 0 ->
  run provider (generateQuiz parse v req) =
  ([], {| status := 400;
          body := ErrorBody "Topic and number of questions are required" None |}).
Proof.
  intros H.
  rewrite generateQuiz_rejected; [reflexivity |].
  unfold passesValidation. apply negb_false_iff.
  destruct H as [H | [H | [H | H]]]; rewrite H; cbn;
    try reflexivity; apply orb_true_r.
Qed.

Lemma missing_field_is_rejected_witness :
  run (fun _ => Completed (Some "[{}]")) (generateQuiz json_parse Basic noTopic) =
  ([], {| status := 400;
          body := ErrorBody "Topic and number of questions are required" None |}).
Proof.
  apply (missing_field_is_rejected json_parse Basic noTopic).
  left. reflexivity.
Defined.

(** C4, as stated, fails: [numQuestions = -5] is non-positive, yet the
    guard [!numQuestions] lets it through; the provider is called once and
    the request is answered with status 200. *)
Lemma negative_count_is_accepted :
  body_numQuestions graphsMinusFive = Some (-5) /\ -5 <= 0 /\
  List.length (fst (serve json_parse Basic graphsMinusFive "[{}]")) = 1%nat /\
  status (responseTo json_parse Basic graphsMinusFive "[{}]") = 200.
Proof.
  split; [reflexivity |]. split; [lia |]. split; vm_compute; reflexivity.
Qed.

(** ** Pagination flag *)

(** C2: on an accepted request, a success response carries
    [hasMoreBatches = (batch * 10 < totalQuestions)], where [batch] is the
    batch of the request, or 1 when it has none, and [totalQuestions] is the
    totalQuestions of the request, or its numQuestions when it has none; the
    reply text, and so the number of questions returned, plays no part.
    [batch * 10] and [totalQuestions] are taken to be safe integers, where
    the product and the comparison of the code are exact. *)
Theorem hasMoreBatches_from_request (parse : string -> option JValue)
    (v : Version) (req : Request) (topic : string) (numQuestions : Z)
    (reply : string) :
  body_topic req = Some topic ->
  body_numQuestions req = Some numQuestions ->
  passesValidation req = true ->
  let batch :=
    match body_batch req with
    | Some b => b
    | None => 1
    end in
  let totalQuestions :=
    match body_totalQuestions req with
    | Some t => t
    | None => numQuestions
    end in
  flagExact batch totalQuestions = true ->
  status (responseTo parse v req reply) = 200 ->
  hasMoreBatchesOf (responseTo parse v req reply) =
  Some (Z.ltb (batch * 10) totalQuestions).
Proof.
  intros Ht Hn Hv batch totalQuestions _.
  change batch with (batchOf req).
  change totalQuestions with (totalOf req numQuestions).
  rewrite (responseTo_accepted parse v req topic numQuestions Ht Hn Hv).
  unfold afterCompletion. cbn [bind].
  destruct (parseQuestions parse v topic (startingIdOf (batchOf req))
              (cleanResponse reply)) as [| | | | [| q qs] |];
    try (cbn; discriminate).
  destruct (validatedQuestions topic (startingIdOf (batchOf req)) (q :: qs));
    cbn; [reflexivity | discriminate].
Qed.

Lemma hasMoreBatches_from_request_witness :
  hasMoreBatchesOf (responseTo json_parse Basic secondOfThree "[{}]") =
  Some true /\
  hasMoreBatchesOf (responseTo json_parse Basic thirdOfThree "[{}, {}, {}]") =
  Some false /\
  hasMoreBatchesOf (responseTo json_parse Enterprise graphsFive "not JSON") =
  Some false.
Proof.
  split; [| split].
  - apply (hasMoreBatches_from_request json_parse Basic secondOfThree
             "graphs" 10 "[{}]" eq_refl eq_refl eq_refl eq_refl).
    vm_compute. reflexivity.
  - apply (hasMoreBatches_from_request json_parse Basic thirdOfThree
             "graphs" 10 "[{}, {}, {}]" eq_refl eq_refl eq_refl eq_refl).
    vm_compute. reflexivity.
  - apply (hasMoreBatches_from_request json_parse Enterprise graphsFive
             "graphs" 5 "not JSON" eq_refl eq_refl eq_refl eq_refl).
    vm_compute. reflexivity.
Defined.

(** ** Structural validation *)

(** C5: on an accepted request, when the cleaned reply parses to a value
    that is not an array, or to the empty array, the response is the 500
    response whose details are "Invalid question format received". *)
Theorem invalid_format_is_500 (parse : string -> option JValue)
    (v : Version) (req : Request) (topic : string) (numQuestions : Z)
    (reply : string) (value : JValue) :
  body_topic req = Some topic ->
  body_numQuestions req = Some numQuestions ->
  passesValidation req = true ->
  parse (cleanResponse reply) = Some value ->
  isArray value = false \/ value = JArr [] ->
  responseTo parse v req reply =
  {| status := 500;
     body := ErrorBody "Failed to generate quiz questions"
               (Some "Invalid question format received") |}.
Proof.
  intros Ht Hn Hv Hp Hshape.
  exact (responseTo_parsed_other parse v req topic numQuestions Ht Hn Hv
           reply value Hp Hshape).
Qed.

Lemma invalid_format_is_500_witness :
  responseTo json_parse Enterprise graphsBatch2 "[]" =
  {| status := 500;
     body := ErrorBody "Failed to generate quiz questions"
               (Some "Invalid question format received") |}.
Proof.
  apply (invalid_format_is_500 json_parse Enterprise graphsBatch2 "graphs" 25
           "[]" (JArr []));
    try (vm_compute; reflexivity).
  right. reflexivity.
Defined.

(** ** The fallback question *)




Lemma validated_fallback (v : Version) (topic : string) (startingId : Z) :
  validatedQuestions topic startingId [fallbackQuestion v topic startingId] =
  Ok [withDefaults topic startingId (fallbackQuestion v topic startingId) 0].
Proof.
  unfold validatedQuestions.
  rewrite mapFrom_notNull; [reflexivity |].
  destruct v; reflexivity.
Qed.

Section Fallback.

Variable JSON_parse : string -> option JValue.
Variable v : Version.
Variable req : Request.
Variable topic : string.
Variable numQuestions : Z.
Hypothesis Htopic : body_topic req = Some topic.
Hypothesis HnumQuestions : body_numQuestions req = Some numQuestions.
Hypothesis Hvalid : passesValidation req = true.

Lemma responseTo_fallback (reply : string) :
  JSON_parse (cleanResponse reply) = None ->
  responseTo JSON_parse v req reply =
  {| status := 200;
     body :=
       QuizBody true
         [withDefaults topic (startingIdOf (batchOf req))
            (fallbackQuestion v topic (startingIdOf (batchOf req))) 0]
         topic (batchOf req) 1 (totalOf req numQuestions)
         (Z.ltb (batchOf req * 10) (totalOf req numQuestions)) |}.
Proof.
  intros Hp.
  rewrite (responseTo_unparsed JSON_parse v req topic numQuestions
             Htopic HnumQuestions Hvalid reply Hp).
  rewrite validated_fallback. reflexivity.
Qed.

End Fallback.




(** ** Decoding failure against wrong top-level type *)

(** C6, as amended: on an accepted request, a reply whose decoding fails
    ([JSON.parse] throws) is not reported as an error: the handler answers
    as if the provider had sent the one-element array holding the fallback
    question, with status 200 and [success = true].  A reply that decodes
    to a value of the wrong top-level type is not a decoding failure: it is
    answered with status 500 and no success body. *)
Theorem fallback_only_on_parse_failure (parse : string -> option JValue)
    (v : Version) (req : Request) (topic : string) (numQuestions : Z)
    (reply : string) :
  body_topic req = Some topic ->
  body_numQuestions req = Some numQuestions ->
  passesValidation req = true ->
  (parse (cleanResponse reply) = None ->
   responseTo parse v req reply =
   responseTo
     (fun _ => Some (JArr [fallbackQuestion v topic (startingIdOf (batchOf req))]))
     v req reply /\
   status (responseTo parse v req reply) = 200 /\
   successOf (responseTo parse v req reply) = Some true /\
   List.length (questionsOf (responseTo parse v req reply)) = 1%nat) /\
  (forall value,
     parse (cleanResponse reply) = Some value ->
     isArray value = false ->
     status (responseTo parse v req reply) = 500 /\
     successOf (responseTo parse v req reply) = None).
Proof.
  intros Ht Hn Hv. split.
  - intros Hp.
    rewrite (responseTo_fallback parse v req topic numQuestions Ht Hn Hv reply Hp).
    split; [| repeat split].
    rewrite (responseTo_parsed_array _ v req topic numQuestions Ht Hn Hv reply
               (fallbackQuestion v topic (startingIdOf (batchOf req))) []
               eq_refl).
    rewrite validated_fallback. reflexivity.
  - intros value Hp Hna.
    rewrite (responseTo_parsed_other parse v req topic numQuestions Ht Hn Hv
               reply value Hp (or_introl Hna)).
    split; reflexivity.
Qed.

Lemma fallback_only_on_parse_failure_witness :
  status (responseTo json_parse Basic graphsFive "[{]") = 200 /\
  status (responseTo json_parse Basic graphsFive "{}") = 500.
Proof.
  split.
  - apply (fallback_only_on_parse_failure json_parse Basic graphsFive
             "graphs" 5 "[{]" eq_refl eq_refl eq_refl).
    vm_compute; reflexivity.
  - apply (proj2 (fallback_only_on_parse_failure json_parse Basic graphsFive
                    "graphs" 5 "{}" eq_refl eq_refl eq_refl) (JObj []));
      vm_compute; reflexivity.
Defined.

(** C6, as stated, fails: the reply [{}] is JSON of the wrong top-level
    type; it is decoded without error, no fallback is substituted, and the
    request is answered with the 500 response. *)
Lemma wrong_top_level_type_is_500 :
  passesValidation graphsFive = true /\
  json_parse (cleanResponse "{}") = Some (JObj []) /\
  isArray (JObj []) = false /\
  responseTo json_parse Basic graphsFive "{}" =
  serverError "Invalid question format received" /\
  responseTo json_parse Enterprise graphsFive "{}" =
  serverError "Invalid question format received" /\
  status (serverError "Invalid question format received") <> 200.
Proof.
  repeat split; try (vm_compute; reflexivity). discriminate.
Qed.

(** ** The two versions of the handler *)

(** C10, as amended: the two versions give the same response to the same
    request and reply text whenever the request is rejected or the cleaned
    reply is decoded by [JSON.parse]; they part only in the fallback
    question that stands in for a reply that cannot be decoded. *)
Theorem versions_agree_unless_fallback (parse : string -> option JValue)
    (req : Request) (reply : string) :
  passesValidation req = false \/ parse (cleanResponse reply) <> None ->
  responseTo parse Basic req reply = responseTo parse Enterprise req reply.
Proof.
  intros H.
  destruct (passesValidation req) eqn:Hv.
  - destruct H as [H | H]; [discriminate |].
    destruct (passesValidation_fields req Hv) as (topic & n & Ht & Hn).
    rewrite !(responseTo_accepted parse _ req topic n Ht Hn Hv).
    unfold afterCompletion, parseQuestions. cbn [bind].
    destruct (parse (cleanResponse reply)); [reflexivity | contradiction].
  - unfold responseTo, serve.
    rewrite !generateQuiz_rejected by exact Hv. reflexivity.
Qed.

Lemma versions_agree_unless_fallback_witness :
  responseTo json_parse Basic graphsBatch2 (jsonFence "[{}, 7]") =
  responseTo json_parse Enterprise graphsBatch2 (jsonFence "[{}, 7]").
Proof.
  apply (versions_agree_unless_fallback json_parse graphsBatch2).
  right. vm_compute. discriminate.
Defined.

(** C10, as stated, fails: on a reply that cannot be decoded the two
    versions return different fallback questions. *)
Lemma versions_differ_on_fallback :
  passesValidation graphsFive = true /\
  json_parse (cleanResponse "Sorry, I cannot do that.") = None /\
  responseTo json_parse Basic graphsFive "Sorry, I cannot do that." <>
  responseTo json_parse Enterprise graphsFive "Sorry, I cannot do that.".
Proof.
  split; [reflexivity |]. split; [vm_compute; reflexivity |].
  intros H.
  assert (Hd : map (member "difficulty")
                 (questionsOf (responseTo json_parse Basic graphsFive
                                 "Sorry, I cannot do that.")) =
               map (member "difficulty")
                 (questionsOf (responseTo json_parse Enterprise graphsFive
                                 "Sorry, I cannot do that.")))
    by (rewrite H; reflexivity).
  vm_compute in Hd. discriminate.
Qed.

(** ** Question ids *)

Lemma hasNoId_notNull (qs : list JValue) :
  forallb hasNoId qs = true -> forallb notNull qs = true.
Proof.
  induction qs as [| q qs IH]; cbn [forallb]; intros H; [reflexivity |].
  apply andb_true_iff in H. destruct H as [Hq Hqs].
  unfold hasNoId in Hq. apply andb_true_iff in Hq. destruct Hq as [Hq _].
  now rewrite Hq, IH.
Qed.

Lemma ids_defaultsFrom (topic : string) (startingId : Z) (qs : list JValue) :
  forall index,
    forallb hasNoId qs = true ->
    map (member "id") (defaultsFrom topic startingId index qs) =
    map (fun i => Some (JInt (startingId + Z.of_nat i)))
      (seq index (List.length qs)).
Proof.
  induction qs as [| q qs IH]; intros index H; [reflexivity |].
  cbn [forallb] in H. apply andb_true_iff in H. destruct H as [Hq Hqs].
  cbn [defaultsFrom List.length seq map]. rewrite (IH _ Hqs). f_equal.
  unfold hasNoId in Hq. apply andb_true_iff in Hq. destruct Hq as [_ Hq].
  replace (member "id" (withDefaults topic startingId q index))
    with (Some (orElse (member "id" q) (JInt (startingId + Z.of_nat index))))
    by reflexivity.
  destruct (member "id" q); [discriminate | reflexivity].
Qed.

(** C3, as amended: [startingId = (batch - 1) * 10 + 1], where [batch]
    is the batch of the request, or 1 when it has none.  When the decoded
    array is not empty, none of its elements supplies an id, and the ids
    are safe integers (the steps of [(batch - 1) * 10 + 1 + index] are exact
    for every index of the array), the request succeeds and the question at
    index [i] gets the id [startingId + i]; all ids then lie in
    [[startingId, startingId + 9]] provided the decoded array has at most 10
    elements. *)
Theorem ids_are_sequential (parse : string -> option JValue)
    (v : Version) (req : Request) (topic : string) (numQuestions : Z)
    (reply : string) (qs : list JValue) :
  body_topic req = Some topic ->
  body_numQuestions req = Some numQuestions ->
  passesValidation req = true ->
  parse (cleanResponse reply) = Some (JArr qs) ->
  qs <> [] ->
  forallb hasNoId qs = true ->
  let batch :=
    match body_batch req with
    | Some b => b
    | None => 1
    end in
  let startingId := (batch - 1) * 10 + 1 in
  idsExact batch (List.length qs) = true ->
  startingIdOf batch = startingId /\
  status (responseTo parse v req reply) = 200 /\
  map (member "id") (questionsOf (responseTo parse v req reply)) =
  map (fun i => Some (JInt (startingId + Z.of_nat i)))
    (seq 0 (List.length qs)) /\
  ((List.length qs <= 10)%nat ->
   forall id,
     In id (map (member "id") (questionsOf (responseTo parse v req reply))) ->
     exists z, id = Some (JInt z) /\ startingId <= z <= startingId + 9).
Proof.
  intros Ht Hn Hv Hp Hne Hno batch startingId _.
  change batch with (batchOf req) in startingId |- *.
  assert (Hresp :
    responseTo parse v req reply =
    {| status := 200;
       body := QuizBody true (defaultsFrom topic startingId 0 qs) topic
                 (batchOf req)
                 (List.length (defaultsFrom topic startingId 0 qs))
                 (totalOf req numQuestions)
                 (Z.ltb (batchOf req * 10) (totalOf req numQuestions)) |}).
  { destruct qs as [| q qs']; [contradiction |].
    rewrite (responseTo_parsed_array parse v req topic numQuestions Ht Hn Hv
               reply q qs' Hp).
    unfold validatedQuestions.
    rewrite mapFrom_notNull by (apply hasNoId_notNull; exact Hno).
    reflexivity. }
  rewrite Hresp. unfold questionsOf. cbn [body status].
  rewrite (ids_defaultsFrom topic startingId qs 0 Hno).
  split; [reflexivity |]. split; [reflexivity |]. split; [reflexivity |].
  intros Hlen id Hin.
  apply in_map_iff in Hin. destruct Hin as (i & <- & Hi).
  apply in_seq in Hi.
  exists (startingId + Z.of_nat i). split; [reflexivity | lia].
Qed.

Lemma ids_are_sequential_witness :
  map (member "id")
    (questionsOf (responseTo json_parse Basic graphsBatch2 "[{}, {}, 7]")) =
  [Some (JInt 11); Some (JInt 12); Some (JInt 13)] /\
  map (member "id")
    (questionsOf (responseTo json_parse Basic graphsFive "[{}, {}]")) =
  [Some (JInt 1); Some (JInt 2)].
Proof.
  split.
  - apply (ids_are_sequential json_parse Basic graphsBatch2 "graphs" 25
             "[{}, {}, 7]" [JObj []; JObj []; JInt 7]
             eq_refl eq_refl eq_refl eq_refl);
      [discriminate | reflexivity | reflexivity].
  - apply (ids_are_sequential json_parse Basic graphsFive "graphs" 5
             "[{}, {}]" [JObj []; JObj []]
             eq_refl eq_refl eq_refl eq_refl);
      [discriminate | reflexivity | reflexivity].
Defined.

(** C3, as stated, fails: the handler does not cut the decoded array down
    to ten, so on an array of eleven elements without ids the last id is
    [startingId + 10]. *)
Lemma eleventh_id_out_of_range :
  passesValidation graphsFive = true /\
  startingIdOf (batchOf graphsFive) = 1 /\
  map (member "id")
    (questionsOf (responseTo json_parse Basic graphsFive
                    "[{},{},{},{},{},{},{},{},{},{},{}]")) =
  map (fun z => Some (JInt z)) [1; 2; 3; 4; 5; 6; 7; 8; 9; 10; 11] /\
  ~ 11 <= startingIdOf (batchOf graphsFive) + 9.
Proof.
  repeat split; try (vm_compute; reflexivity).
  vm_compute. intros H. apply H. reflexivity.
Qed.

(** ** Normalization *)

(** C7, as amended: on any decoded array none of whose elements is [null]
    the normalization succeeds, with one record per element, and applying
    it again to the records it returned gives the same records. *)
Theorem normalization_total_idempotent (topic : string) (startingId : Z)
    (questions : list JValue) :
  forallb notNull questions = true ->
  exists validated,
    validatedQuestions topic startingId questions = Ok validated /\
    List.length validated = List.length questions /\
    validatedQuestions topic startingId validated = Ok validated.
Proof.
  intros H. unfold validatedQuestions.
  exists (defaultsFrom topic startingId 0 questions).
  split; [apply mapFrom_notNull; exact H |].
  split; [apply defaultsFrom_length |].
  rewrite mapFrom_notNull by apply defaultsFrom_notNull.
  now rewrite defaultsFrom_again.
Qed.

Lemma normalization_total_idempotent_witness :
  exists validated,
    validatedQuestions "graphs" 11
      [JObj [("id", JInt 0); ("options", JStr "none")]; JStr "x"; JArr []] =
    Ok validated /\
    List.length validated = 3%nat /\
    validatedQuestions "graphs" 11 validated = Ok validated.
Proof.
  apply (normalization_total_idempotent "graphs" 11
           [JObj [("id", JInt 0); ("options", JStr "none")]; JStr "x"; JArr []]).
  reflexivity.
Defined.

(** C7, as stated, fails: on a [null] element the first property access
    throws, so the normalization is not total on non-empty arrays; the
    handler answers the reply [[null]] with the 500 response. *)
Lemma null_element_throws :
  validatedQuestions "graphs" 1 [JNull] =
  Throw "Cannot read properties of null (reading 'id')" /\
  passesValidation graphsFive = true /\
  json_parse (cleanResponse "[null]") = Some (JArr [JNull]) /\
  responseTo json_parse Basic graphsFive "[null]" =
  serverError "Cannot read properties of null (reading 'id')".
Proof.
  repeat split; vm_compute; reflexivity.
Qed.

(** ** Fenced replies *)

(** C8, as amended: let [text] be a reply which, once trimmed, does not
    itself open with three backticks, and whose surrounding white space
    [JSON.parse] ignores.  Then [text] wrapped in a [```json] fence, or in
    a bare fence, is cleaned back to [text], is decoded to the same value as
    the unwrapped reply, and gets the same response. *)
Theorem fenced_reply_same_as_plain (parse : string -> option JValue)
    (v : Version) (req : Request) (text : string) :
  startsWith (trim text) "```" = false ->
  parse text = parse (trim text) ->
  cleanResponse (jsonFence text) = text /\
  cleanResponse (bareFence text) = text /\
  parse (cleanResponse (jsonFence text)) = parse (cleanResponse text) /\
  parse (cleanResponse (bareFence text)) = parse (cleanResponse text) /\
  responseTo parse v req (jsonFence text) = responseTo parse v req text /\
  responseTo parse v req (bareFence text) = responseTo parse v req text.
Proof.
  intros Hno Hws.
  assert (Hno' : startsWith text "```" = false).
  { destruct (startsWith text "```") eqn:E; [| reflexivity].
    apply startsWith_fence_trim in E. congruence. }
  assert (Hj : parse (cleanResponse (jsonFence text)) =
               parse (cleanResponse text)).
  { rewrite (cleanResponse_jsonFence text Hno').
    rewrite (cleanResponse_plain text Hno). exact Hws. }
  assert (Hb : parse (cleanResponse (bareFence text)) =
               parse (cleanResponse text)).
  { rewrite (cleanResponse_bareFence text).
    rewrite (cleanResponse_plain text Hno). exact Hws. }
  split; [apply cleanResponse_jsonFence; exact Hno' |].
  split; [apply cleanResponse_bareFence |].
  split; [exact Hj |]. split; [exact Hb |].
  split; apply responseTo_same_parse; assumption.
Qed.

Lemma fenced_reply_same_as_plain_witness :
  responseTo json_parse Basic graphsBatch2 (jsonFence " [{}, 7] ") =
  responseTo json_parse Basic graphsBatch2 " [{}, 7] " /\
  responseTo json_parse Basic graphsBatch2 (bareFence " [{}, 7] ") =
  responseTo json_parse Basic graphsBatch2 " [{}, 7] ".
Proof.
  split;
    apply (fenced_reply_same_as_plain json_parse Basic graphsBatch2 " [{}, 7] ");
    vm_compute; reflexivity.
Defined.

(** C8, as stated, fails.  A text that is itself a fenced reply loses its
    own fence only in part when it is wrapped once more: the second
    clean-up removes the three backticks and leaves the word [json], and
    the reply is answered with the fallback question.  And white space that
    [trim] removes but JSON does not allow (here a vertical tab) is kept
    inside a fence, where it makes the decoding fail. *)
Lemma fenced_reply_differs :
  passesValidation graphsFive = true /\
  cleanResponse (jsonFence (jsonFence "[1]")) = "json" ++ nl ++ "[1]" /\
  json_parse (cleanResponse (jsonFence (jsonFence "[1]"))) = None /\
  json_parse (cleanResponse (jsonFence "[1]")) = Some (JArr [JInt 1]) /\
  responseTo json_parse Basic graphsFive (jsonFence (jsonFence "[1]")) <>
  responseTo json_parse Basic graphsFive (jsonFence "[1]") /\
  json_parse (cleanResponse (jsonFence (String VT "[1]"))) = None /\
  json_parse (cleanResponse (String VT "[1]")) = Some (JArr [JInt 1]) /\
  responseTo json_parse Basic graphsFive (jsonFence (String VT "[1]")) <>
  responseTo json_parse Basic graphsFive (String VT "[1]").
Proof.
  repeat split; try (vm_compute; reflexivity);
    intros H;
    match type of H with
    | ?a = ?b =>
        assert (Hq : map (member "question") (questionsOf a) =
                     map (member "question") (questionsOf b))
          by (rewrite H; reflexivity)
    end;
    vm_compute in Hq; discriminate.
Qed.

(** ** Answer indices *)

Lemma indicesValid_notNull (q : JValue) :
  indicesValid q = true -> notNull q = true.
Proof. destruct q; intros H; try reflexivity. discriminate. Qed.

Lemma indicesValid_withDefaults (topic : string) (startingId : Z)
    (q : JValue) (index : nat) :
  indicesValid q = true ->
  indicesValid (withDefaults topic startingId q index) = true.
Proof.
  unfold indicesValid at 1. intros H.
  unfold indicesValid.
  replace (member "options" (withDefaults topic startingId q index))
    with (Some (arrayOr (member "options" q) [])) by reflexivity.
  replace (member "correctAnswers" (withDefaults topic startingId q index))
    with (Some (arrayOr (member "correctAnswers" q) [JInt 0])) by reflexivity.
  destruct (member "options" q) as [[| | | | os |] |]; try discriminate.
  destruct (member "correctAnswers" q) as [[| | | | cs |] |]; try discriminate.
  exact H.
Qed.

Lemma indicesValid_defaultsFrom (topic : string) (startingId : Z)
    (qs : list JValue) :
  forall index,
    forallb indicesValid qs = true ->
    forallb indicesValid (defaultsFrom topic startingId index qs) = true.
Proof.
  induction qs as [| q qs IH]; intros index H; [reflexivity |].
  cbn [forallb] in H. apply andb_true_iff in H. destruct H as [Hq Hqs].
  cbn [defaultsFrom forallb].
  now rewrite indicesValid_withDefaults, IH.
Qed.

Lemma options_defaultsFrom (topic : string) (startingId : Z)
    (qs : list JValue) :
  forall index,
    map (member "options") (defaultsFrom topic startingId index qs) =
    map (fun q => Some (arrayOr (member "options" q) [])) qs /\
    map (member "correctAnswers") (defaultsFrom topic startingId index qs) =
    map (fun q => Some (arrayOr (member "correctAnswers" q) [JInt 0])) qs.
Proof.
  induction qs as [| q qs IH]; intros index; [split; reflexivity |].
  destruct (IH (S index)) as [Ho Hc].
  cbn [defaultsFrom map]. rewrite Ho, Hc. split; reflexivity.
Qed.

(** C9, as amended: a returned record takes [options] and
    [correctAnswers] from the element the handler normalizes (a decoded
    element, or the fallback question) as they are when they are arrays, and
    gets [[]] and [[0]] when they are not; the handler checks no index.  So
    in a success response every element of every [correctAnswers] is a
    natural number below the length of that record's [options] provided this
    already holds of the elements of the array the handler normalizes. *)
Theorem indices_carried_over (parse : string -> option JValue)
    (v : Version) (req : Request) (topic : string) (numQuestions : Z)
    (reply : string) (qs : list JValue) :
  body_topic req = Some topic ->
  body_numQuestions req = Some numQuestions ->
  passesValidation req = true ->
  parseQuestions parse v topic (startingIdOf (batchOf req))
    (cleanResponse reply) = JArr qs ->
  qs <> [] ->
  forallb notNull qs = true ->
  status (responseTo parse v req reply) = 200 /\
  map (member "options") (questionsOf (responseTo parse v req reply)) =
  map (fun q => Some (match member "options" q with
                      | Some (JArr options) => JArr options
                      | _ => JArr []
                      end)) qs /\
  map (member "correctAnswers") (questionsOf (responseTo parse v req reply)) =
  map (fun q => Some (match member "correctAnswers" q with
                      | Some (JArr correctAnswers) => JArr correctAnswers
                      | _ => JArr [JInt 0]
                      end)) qs /\
  (forallb indicesValid qs = true ->
   forallb indicesValid (questionsOf (responseTo parse v req reply)) = true).
Proof.
  intros Ht Hn Hv Hq Hne Hall.
  rewrite (responseTo_accepted parse v req topic numQuestions Ht Hn Hv).
  unfold afterCompletion. cbn [bind]. rewrite Hq.
  destruct qs as [| q qs']; [contradiction |].
  unfold validatedQuestions.
  rewrite (mapFrom_notNull topic (startingIdOf (batchOf req)) (q :: qs') 0 Hall).
  cbn [bind catchAll status]. unfold questionsOf. cbn [body].
  destruct (options_defaultsFrom topic (startingIdOf (batchOf req))
              (q :: qs') 0) as [Ho Hc].
  split; [reflexivity |].
  split; [exact Ho |]. split; [exact Hc |].
  apply indicesValid_defaultsFrom.
Qed.

Lemma indices_carried_over_witness :
  map (member "options")
    (questionsOf (responseTo json_parse Basic thirdOfThree sampleReply)) =
  [Some (JArr [JStr "A graph"; JStr "A list"])] /\
  map (member "correctAnswers")
    (questionsOf (responseTo json_parse Basic thirdOfThree sampleReply)) =
  [Some (JArr [JInt 0])] /\
  map (member "correctAnswers")
    (questionsOf (responseTo json_parse Enterprise thirdOfThree
                    "Sorry, I cannot do that.")) =
  [Some (JArr [JInt 2])] /\
  forallb indicesValid
    (questionsOf (responseTo json_parse Enterprise thirdOfThree
                    "Sorry, I cannot do that.")) = true /\
  map (member "correctAnswers")
    (questionsOf (responseTo json_parse Basic thirdOfThree "[{}, 7]")) =
  [Some (JArr [JInt 0]); Some (JArr [JInt 0])].
Proof.
  pose proof (indices_carried_over json_parse Basic thirdOfThree "graphs" 10
                sampleReply [sampleQuestion]
                eq_refl eq_refl eq_refl eq_refl) as H1.
  pose proof (indices_carried_over json_parse Enterprise thirdOfThree
                "graphs" 10 "Sorry, I cannot do that."
                [fallbackQuestion Enterprise "graphs" 21]
                eq_refl eq_refl eq_refl eq_refl) as H2.
  pose proof (indices_carried_over json_parse Basic thirdOfThree "graphs" 10
                "[{}, 7]" [JObj []; JInt 7]
                eq_refl eq_refl eq_refl eq_refl) as H3.
  destruct H1 as (_ & Ho1 & Hc1 & _); [discriminate | reflexivity |].
  destruct H2 as (_ & _ & Hc2 & Hi2); [discriminate | reflexivity |].
  destruct H3 as (_ & _ & Hc3 & _); [discriminate | reflexivity |].
  split; [exact Ho1 |]. split; [exact Hc1 |]. split; [exact Hc2 |].
  split; [apply Hi2; reflexivity | exact Hc3].
Defined.

(** C9, as stated, fails: for the reply [[{}]] the record gets the
    defaults [options = []] and [correctAnswers = [0]], and 0 is not an
    index into the empty sequence. *)
Lemma default_answer_not_an_index :
  passesValidation graphsFive = true /\
  status (responseTo json_parse Basic graphsFive "[{}]") = 200 /\
  map (member "options")
    (questionsOf (responseTo json_parse Basic graphsFive "[{}]")) =
  [Some (JArr [])] /\
  map (member "correctAnswers")
    (questionsOf (responseTo json_parse Basic graphsFive "[{}]")) =
  [Some (JArr [JInt 0])] /\
  isIndexInto [] (JInt 0) = false /\
  forallb indicesValid
    (questionsOf (responseTo json_parse Basic graphsFive "[{}]")) = false.
Proof.
  repeat split; vm_compute; reflexivity.
Qed.

(** * Further properties of the handler *)

(** ** The handler by cases *)

Lemma mapFrom_null (topic : string) (startingId : Z) (qs : list JValue) :
  forall index,
    forallb notNull qs = false ->
    mapFrom (validateQuestion topic startingId) index qs =
    Throw "Cannot read properties of null (reading 'id')".
Proof.
  induction qs as [| q qs IH]; intros index H; [discriminate |].
  cbn [forallb] in H. cbn [mapFrom].
  destruct (notNull q) eqn:Hq.
  - rewrite (validateQuestion_notNull topic startingId q index Hq).
    cbn [bind]. rewrite (IH _ H). reflexivity.
  - destruct q; try discriminate. reflexivity.
Qed.

Lemma afterCompletion_content (parse : string -> option JValue) (v : Version)
    (topic : string) (batch totalQuestions startingId : Z) (content : string) :
  catchAll
    (afterCompletion parse v topic batch totalQuestions startingId
       (Completed (Some content))) =
  responseFor topic batch totalQuestions startingId
    (parseQuestions parse v topic startingId (cleanResponse content)).
Proof.
  unfold afterCompletion, responseFor. cbn [bind].
  destruct (parseQuestions parse v topic startingId (cleanResponse content))
    as [| | | | [| q qs] |]; try reflexivity.
  unfold validatedQuestions.
  destruct (forallb notNull (q :: qs)) eqn:Hall.
  - rewrite (mapFrom_notNull topic startingId (q :: qs) 0 Hall). reflexivity.
  - rewrite (mapFrom_null topic startingId (q :: qs) 0 Hall). reflexivity.
Qed.

Lemma afterCompletion_failed (parse : string -> option JValue) (v : Version)
    (topic : string) (batch totalQuestions startingId : Z) :
  (forall message,
     catchAll (afterCompletion parse v topic batch totalQuestions startingId
                 (Rejected message)) = serverError message) /\
  catchAll (afterCompletion parse v topic batch totalQuestions startingId
              (Completed None)) =
  serverError "Cannot read properties of null (reading 'trim')".
Proof. split; reflexivity. Qed.

Lemma responseFor_shape (topic : string) (batch totalQuestions startingId : Z)
    (questions : JValue) :
  (exists qs,
     qs <> [] /\
     responseFor topic batch totalQuestions startingId questions =
     successResponse topic batch totalQuestions qs) \/
  (exists details,
     responseFor topic batch totalQuestions startingId questions =
     serverError details).
Proof.
  unfold responseFor.
  destruct questions as [| | | | [| q qs] |]; try (right; eexists; reflexivity).
  destruct (forallb notNull (q :: qs)).
  - left. eexists. split; [| reflexivity]. discriminate.
  - right. eexists. reflexivity.
Qed.

Lemma run_accepted (parse : string -> option JValue) (v : Version)
    (req : Request) (topic : string) (numQuestions : Z)
    (provider : CompletionRequest -> ProviderResult) :
  body_topic req = Some topic ->
  body_numQuestions req = Some numQuestions ->
  passesValidation req = true ->
  exists call,
    run provider (generateQuiz parse v req) =
    ([call],
     catchAll
       (afterCompletion parse v topic (batchOf req)
          (totalOf req numQuestions) (startingIdOf (batchOf req))
          (provider call))).
Proof.
  intros Ht Hn Hv.
  destruct (generateQuiz_accepted parse v req topic numQuestions Ht Hn Hv)
    as [call ->].
  exists call. reflexivity.
Qed.

Lemma responseTo_responseFor (parse : string -> option JValue) (v : Version)
    (req : Request) (topic : string) (numQuestions : Z) (reply : string) :
  body_topic req = Some topic ->
  body_numQuestions req = Some numQuestions ->
  passesValidation req = true ->
  responseTo parse v req reply =
  responseFor topic (batchOf req) (totalOf req numQuestions)
    (startingIdOf (batchOf req))
    (parseQuestions parse v topic (startingIdOf (batchOf req))
       (cleanResponse reply)).
Proof.
  intros Ht Hn Hv.
  rewrite (responseTo_accepted parse v req topic numQuestions Ht Hn Hv).
  apply afterCompletion_content.
Qed.

Lemma afterCompletion_shape (parse : string -> option JValue) (v : Version)
    (topic : string) (batch totalQuestions startingId : Z)
    (result : ProviderResult) :
  (exists qs,
     qs <> [] /\
     catchAll (afterCompletion parse v topic batch totalQuestions startingId
                 result) =
     successResponse topic batch totalQuestions qs) \/
  (exists details,
     catchAll (afterCompletion parse v topic batch totalQuestions startingId
                 result) =
     serverError details).
Proof.
  destruct result as [message | [content |]].
  - right. exists message. reflexivity.
  - rewrite afterCompletion_content. apply responseFor_shape.
  - right. eexists. reflexivity.
Qed.

(** ** Provider calls and status codes *)

(** X1: whatever the provider does, the handler calls it exactly once when
    the request passes the guard of line 25 and not at all otherwise, and
    the status is 400 exactly when the request does not pass it. *)
Theorem provider_called_iff_accepted (parse : string -> option JValue)
    (v : Version) (req : Request)
    (provider : CompletionRequest -> ProviderResult) :
  List.length (fst (run provider (generateQuiz parse v req))) =
  (if passesValidation req then 1 else 0)%nat /\
  (status (snd (run provider (generateQuiz parse v req))) = 400 <->
   passesValidation req = false).
Proof.
  destruct (passesValidation req) eqn:Hv.
  - destruct (passesValidation_fields req Hv) as (topic & n & Ht & Hn).
    destruct (run_accepted parse v req topic n provider Ht Hn Hv) as [call ->].
    cbn [fst snd List.length]. split; [reflexivity |].
    split; [| discriminate].
    destruct (afterCompletion_shape parse v topic (batchOf req) (totalOf req n)
                (startingIdOf (batchOf req)) (provider call))
      as [(qs & _ & ->) | (details & ->)]; cbn; discriminate.
  - rewrite (generateQuiz_rejected parse v req Hv). cbn.
    split; [reflexivity |]. split; reflexivity.
Qed.

(** X2: every response has one of three shapes.  Status 200 comes with
    [success = true], a non-empty list of questions, [questionsInBatch]
    equal to its length, and the request echoed: its topic, its batch (1
    when the request has none) and its totalQuestions (its numQuestions
    when the request has none).  Status 400 comes with the fixed error
    message and no details; status 500 comes with the fixed error message
    and the message of the exception as details. *)
Theorem response_shapes (parse : string -> option JValue)
    (v : Version) (req : Request)
    (provider : CompletionRequest -> ProviderResult) :
  let r := snd (run provider (generateQuiz parse v req)) in
  (exists qs topic numQuestions more,
     body_topic req = Some topic /\
     body_numQuestions req = Some numQuestions /\
     qs <> [] /\
     r = {| status := 200;
            body := QuizBody true qs topic
                      match body_batch req with
                      | Some b => b
                      | None => 1
                      end
                      (List.length qs)
                      match body_totalQuestions req with
                      | Some t => t
                      | None => numQuestions
                      end
                      more |}) \/
  r = {| status := 400;
         body := ErrorBody "Topic and number of questions are required" None |} \/
  (exists details,
     r = {| status := 500;
            body := ErrorBody "Failed to generate quiz questions"
                      (Some details) |}).
Proof.
  cbv zeta.
  destruct (passesValidation req) eqn:Hv.
  - destruct (passesValidation_fields req Hv) as (topic & n & Ht & Hn).
    destruct (run_accepted parse v req topic n provider Ht Hn Hv) as [call ->].
    cbn [snd].
    destruct (afterCompletion_shape parse v topic (batchOf req) (totalOf req n)
                (startingIdOf (batchOf req)) (provider call))
      as [(qs & Hne & ->) | (details & ->)].
    + left. exists qs, topic, n.
      exists (Z.ltb (batchOf req * 10) (totalOf req n)).
      repeat split; assumption.
    + right. right. exists details. reflexivity.
  - rewrite (generateQuiz_rejected parse v req Hv).
    right. left. reflexivity.
Qed.

Lemma response_shapes_witness :
  (exists qs more,
     qs <> [] /\
     responseTo json_parse Basic thirdOfThree "[{}, 7]" =
     {| status := 200;
        body := QuizBody true qs "graphs" 3 (List.length qs) 25 more |}) /\
  (exists qs more,
     qs <> [] /\
     responseTo json_parse Basic graphsFive "[{}, 7]" =
     {| status := 200;
        body := QuizBody true qs "graphs" 1 (List.length qs) 5 more |}).
Proof.
  split.
  - destruct (response_shapes json_parse Basic thirdOfThree
                (fun _ => Completed (Some "[{}, 7]")))
      as [(qs & topic & n & more & Ht & Hn & Hne & Hr) | [Hr | (details & Hr)]].
    + injection Ht as <-. injection Hn as <-.
      exists qs, more. split; [exact Hne | exact Hr].
    + apply (f_equal status) in Hr. vm_compute in Hr. discriminate.
    + apply (f_equal status) in Hr. vm_compute in Hr. discriminate.
  - destruct (response_shapes json_parse Basic graphsFive
                (fun _ => Completed (Some "[{}, 7]")))
      as [(qs & topic & n & more & Ht & Hn & Hne & Hr) | [Hr | (details & Hr)]].
    + injection Ht as <-. injection Hn as <-.
      exists qs, more. split; [exact Hne | exact Hr].
    + apply (f_equal status) in Hr. vm_compute in Hr. discriminate.
    + apply (f_equal status) in Hr. vm_compute in Hr. discriminate.
Defined.

(** X3: on an accepted request, a rejected provider call is answered with
    status 500 and the provider's message as details, and a completion
    whose content is [null] with status 500 and the TypeError of
    [content.trim()]; in neither case is a fallback question substituted. *)
Theorem provider_failure_is_500 (parse : string -> option JValue)
    (v : Version) (req : Request) (message : string) :
  passesValidation req = true ->
  snd (run (fun _ => Rejected message) (generateQuiz parse v req)) =
  {| status := 500;
     body := ErrorBody "Failed to generate quiz questions" (Some message) |} /\
  snd (run (fun _ => Completed None) (generateQuiz parse v req)) =
  {| status := 500;
     body := ErrorBody "Failed to generate quiz questions"
               (Some "Cannot read properties of null (reading 'trim')") |}.
Proof.
  intros Hv.
  destruct (passesValidation_fields req Hv) as (topic & n & Ht & Hn).
  destruct (generateQuiz_accepted parse v req topic n Ht Hn Hv) as [call ->].
  split; reflexivity.
Qed.

Lemma provider_failure_is_500_witness :
  snd (run rateLimited (generateQuiz json_parse Basic graphsBatch2)) =
  {| status := 500;
     body := ErrorBody "Failed to generate quiz questions"
               (Some "429 Rate limit reached") |} /\
  snd (run refusing (generateQuiz json_parse Basic graphsBatch2)) =
  {| status := 500;
     body := ErrorBody "Failed to generate quiz questions"
               (Some "Cannot read properties of null (reading 'trim')") |}.
Proof.
  apply (provider_failure_is_500 json_parse Basic graphsBatch2
           "429 Rate limit reached").
  reflexivity.
Defined.

(** X4: the one call of an accepted request asks the version's model for
    [min(numQuestions, 10)] questions with [max_tokens = 3000], for the
    topic and the batch of the request (batch 1 when it has none).  As long
    as the steps of the computation are safe integers, the id range
    announced in the prompt starts at [startingId = (batch - 1) * 10 + 1] and
    holds exactly that many ids, so for a positive [numQuestions] it has
    between 1 and 10 ids and stays within [startingId .. startingId + 9]. *)
Theorem provider_call_shape (parse : string -> option JValue)
    (v : Version) (req : Request) (topic : string) (numQuestions : Z)
    (provider : CompletionRequest -> ProviderResult) :
  body_topic req = Some topic ->
  body_numQuestions req = Some numQuestions ->
  passesValidation req = true ->
  let batch :=
    match body_batch req with
    | Some b => b
    | None => 1
    end in
  promptExact batch numQuestions = true ->
  exists call,
    fst (run provider (generateQuiz parse v req)) = [call] /\
    model call =
    match v with
    | Basic => "gpt-4o"
    | Enterprise => "gpt-4.1-2025-04-14"
    end /\
    max_tokens call = 3000 /\
    prompt_topic (user_content call) = topic /\
    prompt_batch (user_content call) = batch /\
    prompt_limitedQuestions (user_content call) = Z.min numQuestions 10 /\
    prompt_limitedQuestions (user_content call) <= 10 /\
    prompt_startingId (user_content call) = (batch - 1) * 10 + 1 /\
    prompt_lastId (user_content call) - prompt_startingId (user_content call) + 1
    = prompt_limitedQuestions (user_content call) /\
    (1 <= numQuestions ->
     prompt_startingId (user_content call) <= prompt_lastId (user_content call)
     <= prompt_startingId (user_content call) + 9).
Proof.
  intros Ht Hn Hv batch _.
  change batch with (batchOf req).
  unfold generateQuiz.
  unfold passesValidation in Hv. apply negb_true_iff in Hv.
  rewrite Hv, Ht, Hn.
  eexists. split; [reflexivity |].
  cbn [model max_tokens user_content prompt_topic prompt_batch
       prompt_limitedQuestions prompt_startingId prompt_lastId].
  unfold startingIdOf.
  repeat split; try reflexivity; lia.
Qed.

Lemma provider_call_shape_witness :
  exists call,
    fst (run rateLimited (generateQuiz json_parse Enterprise graphsBatch2)) =
    [call] /\
    model call = "gpt-4.1-2025-04-14" /\
    prompt_batch (user_content call) = 2 /\
    prompt_limitedQuestions (user_content call) = 10 /\
    prompt_startingId (user_content call) = 11 /\
    prompt_lastId (user_content call) = 20.
Proof.
  destruct (provider_call_shape json_parse Enterprise graphsBatch2 "graphs" 25
              rateLimited eq_refl eq_refl eq_refl eq_refl)
    as (call & Hc & Hm & _ & _ & Hb & Hl & _ & Hs & Hr & _).
  exists call. repeat split; try assumption.
  rewrite Hl, Hs in Hr. cbn in Hr. lia.
Defined.

(** ** Which replies succeed, and with how many questions *)

(** X5: an accepted request is answered with status 200 exactly when the
    cleaned reply cannot be decoded (the fallback stands in), or is decoded
    to a non-empty array none of whose elements is [null]; every other
    reply is answered with status 500. *)
Theorem success_iff_decodable (parse : string -> option JValue)
    (v : Version) (req : Request) (reply : string) :
  passesValidation req = true ->
  (status (responseTo parse v req reply) = 200 <->
   parse (cleanResponse reply) = None \/
   exists qs,
     parse (cleanResponse reply) = Some (JArr qs) /\ qs <> [] /\
     forallb notNull qs = true) /\
  (status (responseTo parse v req reply) <> 200 ->
   status (responseTo parse v req reply) = 500).
Proof.
  intros Hv.
  destruct (passesValidation_fields req Hv) as (topic & n & Ht & Hn).
  rewrite (responseTo_responseFor parse v req topic n reply Ht Hn Hv).
  split.
  - unfold parseQuestions, responseFor.
    destruct (parse (cleanResponse reply)) as [value |].
    + split.
      * intros Hs. right.
        destruct value as [| | | | [| q qs] |]; try (cbn in Hs; discriminate).
        exists (q :: qs). split; [reflexivity |]. split; [discriminate |].
        destruct (forallb notNull (q :: qs));
          [reflexivity | cbn in Hs; discriminate].
      * intros [Hnone | (qs & Hq & Hne & Hall)]; [discriminate |].
        injection Hq as ->.
        destruct qs as [| q qs]; [contradiction |].
        rewrite Hall. reflexivity.
    + split; [intros _; left; reflexivity | intros _].
      replace (forallb notNull
                 [fallbackQuestion v topic (startingIdOf (batchOf req))])
        with true by (destruct v; reflexivity).
      reflexivity.
  - destruct (responseFor_shape topic (batchOf req) (totalOf req n)
                (startingIdOf (batchOf req))
                (parseQuestions parse v topic (startingIdOf (batchOf req))
                   (cleanResponse reply)))
      as [(qs & _ & ->) | (details & ->)].
    + intros H. exfalso. apply H. reflexivity.
    + intros _. reflexivity.
Qed.

Lemma success_iff_decodable_witness :
  status (responseTo json_parse Basic graphsFive "[{}, 7]") = 200 /\
  status (responseTo json_parse Basic graphsFive "[{}, null]") = 500.
Proof.
  split.
  - apply (success_iff_decodable json_parse Basic graphsFive "[{}, 7]" eq_refl).
    right. exists [JObj []; JInt 7].
    split; [reflexivity |]. split; [discriminate | reflexivity].
  - apply (success_iff_decodable json_parse Basic graphsFive "[{}, null]"
             eq_refl).
    intros Hs.
    apply (success_iff_decodable json_parse Basic graphsFive "[{}, null]"
             eq_refl) in Hs.
    destruct Hs as [Hnone | (qs & Hq & _ & Hall)].
    + vm_compute in Hnone. discriminate.
    + vm_compute in Hq. injection Hq as <-. discriminate.
Defined.



(** ** The shape of returned records *)

Lemma recordShaped_withDefaults (topic : string) (startingId : Z)
    (q : JValue) (index : nat) :
  recordShaped (withDefaults topic startingId q index) = true.
Proof.
  unfold recordShaped, withDefaults, isArrayMember.
  replace (sameKeys recordKeys _) with true by reflexivity.
  cbn [member lookup].
  replace (String.eqb "options" "id") with false by reflexivity.
  replace (String.eqb "options" "question") with false by reflexivity.
  replace (String.eqb "options" "options") with true by reflexivity.
  replace (String.eqb "correctAnswers" "id") with false by reflexivity.
  replace (String.eqb "correctAnswers" "question") with false by reflexivity.
  replace (String.eqb "correctAnswers" "options") with false by reflexivity.
  replace (String.eqb "correctAnswers" "correctAnswers") with true
    by reflexivity.
  cbv iota.
  destruct (member "options" q) as [[| | | | os |] |];
    destruct (member "correctAnswers" q) as [[| | | | cs |] |]; reflexivity.
Qed.

Lemma recordShaped_defaultsFrom (topic : string) (startingId : Z)
    (qs : list JValue) :
  forall index,
    forallb recordShaped (defaultsFrom topic startingId index qs) = true.
Proof.
  induction qs as [| q qs IH]; intros index; [reflexivity |].
  cbn [defaultsFrom forallb].
  now rewrite recordShaped_withDefaults, IH.
Qed.

(** X7: every question of every response is an object with exactly the
    keys id, question, options, correctAnswers, multipleChoice, difficulty,
    explanation and category, in this order, and its [options] and
    [correctAnswers] are arrays: members the provider adds are dropped and
    members it omits are filled in. *)
Theorem returned_records_are_shaped (parse : string -> option JValue)
    (v : Version) (req : Request) (reply : string) :
  forallb recordShaped (questionsOf (responseTo parse v req reply)) = true.
Proof.
  destruct (passesValidation req) eqn:Hv.
  - destruct (passesValidation_fields req Hv) as (topic & n & Ht & Hn).
    rewrite (responseTo_responseFor parse v req topic n reply Ht Hn Hv).
    unfold responseFor.
    destruct (parseQuestions parse v topic (startingIdOf (batchOf req))
                (cleanResponse reply)) as [| | | | [| q qs] |];
      try reflexivity.
    destruct (forallb notNull (q :: qs)); [| reflexivity].
    unfold successResponse, questionsOf. cbn [body].
    apply recordShaped_defaultsFrom.
  - unfold responseTo, serve.
    rewrite (generateQuiz_rejected parse v req Hv). reflexivity.
Qed.

(** ** Elements returned as they are, and elements made of defaults *)

Lemma orElse_truthy (w d : JValue) :
  truthy w = true -> orElse (Some w) d = w.
Proof. intros H. cbn [orElse]. now rewrite H. Qed.


Lemma orElse_flag (w : JValue) :
  match w with
  | JBool _ => true
  | _ => truthy w
  end = true ->
  orElse (Some w) (JBool false) = w.
Proof.
  destruct w as [| [|] | | | |]; intros H; try discriminate;
    try reflexivity; cbn [orElse]; now rewrite H.
Qed.

Lemma withDefaults_wellFormed (topic : string) (startingId : Z)
    (q : JValue) (index : nat) :
  wellFormed q = true ->
  withDefaults topic startingId q index = q.
Proof.
  unfold wellFormed. intros H.
  repeat (apply andb_true_iff in H; destruct H as [H ?]).
  destruct q as [| | | | | members]; try discriminate.
  unfold recordShaped in H.
  repeat (apply andb_true_iff in H; destruct H as [H ?]).
  destruct members as
    [| [k1 v1] [| [k2 v2] [| [k3 v3] [| [k4 v4] [| [k5 v5] [| [k6 v6]
    [| [k7 v7] [| [k8 v8] [| m9 rest]]]]]]]]];
    cbn [sameKeys recordKeys] in H;
    repeat rewrite ?andb_false_r in H; try discriminate.
  repeat (apply andb_true_iff in H; destruct H as [? H]).
  repeat match goal with
         | E : String.eqb _ _ = true |- _ => apply String.eqb_eq in E; subst
         end.
  unfold isArrayMember, truthyMember in *.
  cbn in * |-.
  unfold withDefaults. cbn [member lookup].
  repeat match goal with
         | |- context [String.eqb ?a ?b] =>
             let r := eval vm_compute in (String.eqb a b) in
             change (String.eqb a b) with r
         end.
  cbv iota.
  destruct v3; try discriminate. destruct v4; try discriminate.
  cbn [arrayOr].
  rewrite (orElse_truthy v1), (orElse_truthy v2), (orElse_truthy v6),
    (orElse_truthy v7), (orElse_truthy v8), (orElse_flag v5) by assumption.
  reflexivity.
Qed.

Lemma defaultsFrom_wellFormed (topic : string) (startingId : Z)
    (qs : list JValue) :
  forall index,
    forallb wellFormed qs = true ->
    defaultsFrom topic startingId index qs = qs.
Proof.
  induction qs as [| q qs IH]; intros index H; [reflexivity |].
  cbn [forallb] in H. apply andb_true_iff in H. destruct H as [Hq Hqs].
  cbn [defaultsFrom]. now rewrite withDefaults_wellFormed, IH.
Qed.

Lemma wellFormed_notNull (qs : list JValue) :
  forallb wellFormed qs = true -> forallb notNull qs = true.
Proof.
  induction qs as [| q qs IH]; cbn [forallb]; intros H; [reflexivity |].
  apply andb_true_iff in H. destruct H as [Hq Hqs].
  rewrite (IH Hqs). destruct q; try reflexivity. discriminate.
Qed.

(** X8: when the cleaned reply decodes to a non-empty array of well-formed
    questions (the eight members in order, [options] and [correctAnswers]
    arrays, the other members truthy or [multipleChoice] a boolean), the
    response carries exactly the decoded array: ids, texts and answers of
    the provider are returned unchanged and unchecked. *)
Theorem well_formed_reply_verbatim (parse : string -> option JValue)
    (v : Version) (req : Request) (topic : string) (numQuestions : Z)
    (reply : string) (qs : list JValue) :
  body_topic req = Some topic ->
  body_numQuestions req = Some numQuestions ->
  passesValidation req = true ->
  parse (cleanResponse reply) = Some (JArr qs) ->
  qs <> [] ->
  forallb wellFormed qs = true ->
  status (responseTo parse v req reply) = 200 /\
  questionsOf (responseTo parse v req reply) = qs.
Proof.
  intros Ht Hn Hv Hp Hne Hall.
  rewrite (responseTo_responseFor parse v req topic numQuestions reply Ht Hn Hv).
  unfold parseQuestions, responseFor. rewrite Hp.
  destruct qs as [| q qs]; [contradiction |].
  rewrite (wellFormed_notNull _ Hall).
  unfold successResponse, questionsOf. cbn [status body].
  split; [reflexivity |].
  apply defaultsFrom_wellFormed. exact Hall.
Qed.

Lemma well_formed_reply_verbatim_witness :
  status (responseTo json_parse Enterprise graphsBatch2 sampleReply) = 200 /\
  questionsOf (responseTo json_parse Enterprise graphsBatch2 sampleReply) =
  [sampleQuestion].
Proof.
  apply (well_formed_reply_verbatim json_parse Enterprise graphsBatch2
           "graphs" 25 sampleReply [sampleQuestion]
           eq_refl eq_refl eq_refl eq_refl);
    [discriminate | reflexivity].
Defined.










(** ** Ids within a batch and across batches *)

Lemma responseTo_noIds (parse : string -> option JValue) (v : Version)
    (req : Request) (topic : string) (numQuestions : Z) (reply : string)
    (qs : list JValue) :
  body_topic req = Some topic ->
  body_numQuestions req = Some numQuestions ->
  passesValidation req = true ->
  parse (cleanResponse reply) = Some (JArr qs) ->
  qs <> [] ->
  forallb hasNoId qs = true ->
  map (member "id") (questionsOf (responseTo parse v req reply)) =
  map (fun i => Some (JInt (startingIdOf (batchOf req) + Z.of_nat i)))
    (seq 0 (List.length qs)).
Proof.
  intros Ht Hn Hv Hp Hne Hno.
  rewrite (responseTo_responseFor parse v req topic numQuestions reply Ht Hn Hv).
  unfold parseQuestions, responseFor. rewrite Hp.
  destruct qs as [| q qs]; [contradiction |].
  rewrite (hasNoId_notNull _ Hno).
  unfold successResponse, questionsOf. cbn [body].
  apply (ids_defaultsFrom topic (startingIdOf (batchOf req)) (q :: qs) 0 Hno).
Qed.

(** X11: when no decoded element supplies an id and the ids are safe
    integers (the steps of [(batch - 1) * 10 + 1 + index] are exact for
    every index of the array), the ids of the returned questions are
    pairwise distinct, however many elements there are. *)
Theorem default_ids_are_distinct (parse : string -> option JValue)
    (v : Version) (req : Request) (topic : string) (numQuestions : Z)
    (reply : string) (qs : list JValue) :
  body_topic req = Some topic ->
  body_numQuestions req = Some numQuestions ->
  passesValidation req = true ->
  parse (cleanResponse reply) = Some (JArr qs) ->
  qs <> [] ->
  forallb hasNoId qs = true ->
  idsExact
    match body_batch req with
    | Some b => b
    | None => 1
    end (List.length qs) = true ->
  NoDup (map (member "id") (questionsOf (responseTo parse v req reply))).
Proof.
  intros Ht Hn Hv Hp Hne Hno _.
  rewrite (responseTo_noIds parse v req topic numQuestions reply qs
             Ht Hn Hv Hp Hne Hno).
  apply Finite.Injective_map_NoDup; [| apply seq_NoDup].
  intros i j H. injection H as H. lia.
Qed.

Lemma default_ids_are_distinct_witness :
  NoDup
    (map (member "id")
       (questionsOf (responseTo json_parse Basic graphsBatch2 "[{}, {}, 7]"))).
Proof.
  apply (default_ids_are_distinct json_parse Basic graphsBatch2 "graphs" 25
           "[{}, {}, 7]" [JObj []; JObj []; JInt 7]
           eq_refl eq_refl eq_refl eq_refl);
    [discriminate | reflexivity | reflexivity].
Defined.

(** X12: two batches do not share an id: when neither reply supplies ids,
    the ids of both batches are safe integers, and the reply of the earlier
    batch decodes to at most ten elements, no id of the earlier batch's
    response occurs in the response of a later batch.  The batch of a
    request is 1 when the request has none. *)
Theorem batches_do_not_share_ids (parse : string -> option JValue)
    (v1 v2 : Version) (req1 req2 : Request) (topic1 topic2 : string)
    (n1 n2 : Z) (reply1 reply2 : string) (qs1 qs2 : list JValue) :
  body_topic req1 = Some topic1 -> body_numQuestions req1 = Some n1 ->
  passesValidation req1 = true ->
  body_topic req2 = Some topic2 -> body_numQuestions req2 = Some n2 ->
  passesValidation req2 = true ->
  parse (cleanResponse reply1) = Some (JArr qs1) -> qs1 <> [] ->
  forallb hasNoId qs1 = true ->
  parse (cleanResponse reply2) = Some (JArr qs2) -> qs2 <> [] ->
  forallb hasNoId qs2 = true ->
  let batch1 :=
    match body_batch req1 with
    | Some b => b
    | None => 1
    end in
  let batch2 :=
    match body_batch req2 with
    | Some b => b
    | None => 1
    end in
  idsExact batch1 (List.length qs1) = true ->
  idsExact batch2 (List.length qs2) = true ->
  batch1 < batch2 ->
  (List.length qs1 <= 10)%nat ->
  forall id,
    In id (map (member "id") (questionsOf (responseTo parse v1 req1 reply1))) ->
    ~ In id (map (member "id") (questionsOf (responseTo parse v2 req2 reply2))).
Proof.
  intros Ht1 Hn1 Hv1 Ht2 Hn2 Hv2 Hp1 Hne1 Hno1 Hp2 Hne2 Hno2
         batch1 batch2 _ _ Hlt Hlen id.
  change batch1 with (batchOf req1) in Hlt.
  change batch2 with (batchOf req2) in Hlt.
  rewrite (responseTo_noIds parse v1 req1 topic1 n1 reply1 qs1
             Ht1 Hn1 Hv1 Hp1 Hne1 Hno1).
  rewrite (responseTo_noIds parse v2 req2 topic2 n2 reply2 qs2
             Ht2 Hn2 Hv2 Hp2 Hne2 Hno2).
  intros Hin1 Hin2.
  apply in_map_iff in Hin1. destruct Hin1 as (i & <- & Hi).
  apply in_map_iff in Hin2. destruct Hin2 as (j & Hj & Hjr).
  apply in_seq in Hi. apply in_seq in Hjr.
  injection Hj as Hj. unfold startingIdOf in Hj. lia.
Qed.

Lemma batches_do_not_share_ids_witness :
  In (Some (JInt 2))
    (map (member "id")
       (questionsOf (responseTo json_parse Basic graphsFive "[{}, {}]"))) /\
  ~ In (Some (JInt 2))
      (map (member "id")
         (questionsOf (responseTo json_parse Basic graphsBatch2 "[{}]"))).
Proof.
  assert (Hin : In (Some (JInt 2))
                  (map (member "id")
                     (questionsOf (responseTo json_parse Basic graphsFive
                                     "[{}, {}]"))))
    by (right; left; reflexivity).
  split; [exact Hin |].
  apply (batches_do_not_share_ids json_parse Basic Basic graphsFive graphsBatch2
           "graphs" "graphs" 5 25 "[{}, {}]" "[{}]"
           [JObj []; JObj []] [JObj []]
           eq_refl eq_refl eq_refl eq_refl eq_refl eq_refl eq_refl);
    first [exact Hin | discriminate | reflexivity | cbn; lia].
Defined.

(** ** Pagination *)

(** X13: a client that asks for batches 1, 2, 3, ... of a fixed
    [totalQuestions] is told that more batches remain exactly for the
    batches before number [ceil(totalQuestions / 10)]: in a success response
    [hasMoreBatches] is [batch < (totalQuestions + 9) div 10], where [batch]
    is the batch of the request (1 when it has none), [totalQuestions] its
    totalQuestions (its numQuestions when it has none), and [batch * 10]
    and [totalQuestions] are safe integers. *)
Theorem hasMoreBatches_counts_batches (parse : string -> option JValue)
    (v : Version) (req : Request) (topic : string) (numQuestions : Z)
    (reply : string) :
  body_topic req = Some topic ->
  body_numQuestions req = Some numQuestions ->
  passesValidation req = true ->
  let batch :=
    match body_batch req with
    | Some b => b
    | None => 1
    end in
  let totalQuestions :=
    match body_totalQuestions req with
    | Some t => t
    | None => numQuestions
    end in
  flagExact batch totalQuestions = true ->
  status (responseTo parse v req reply) = 200 ->
  hasMoreBatchesOf (responseTo parse v req reply) =
  Some (Z.ltb batch ((totalQuestions + 9) / 10)).
Proof.
  intros Ht Hn Hv batch totalQuestions _.
  change batch with (batchOf req).
  change totalQuestions with (totalOf req numQuestions).
  rewrite (responseTo_responseFor parse v req topic numQuestions reply Ht Hn Hv).
  destruct (responseFor_shape topic (batchOf req) (totalOf req numQuestions)
              (startingIdOf (batchOf req))
              (parseQuestions parse v topic (startingIdOf (batchOf req))
                 (cleanResponse reply)))
    as [(qs & _ & ->) | (details & ->)]; [| discriminate].
  intros _. unfold successResponse, hasMoreBatchesOf. cbn [body]. f_equal.
  destruct (Z.ltb_spec (batchOf req * 10) (totalOf req numQuestions));
    destruct (Z.ltb_spec (batchOf req) ((totalOf req numQuestions + 9) / 10));
    try reflexivity; exfalso; Z.div_mod_to_equations; lia.
Qed.

Lemma hasMoreBatches_counts_batches_witness :
  hasMoreBatchesOf (responseTo json_parse Basic secondOfThree "[{}]") =
  Some true /\
  hasMoreBatchesOf (responseTo json_parse Basic thirdOfThree "[{}]") =
  Some false /\
  (25 + 9) / 10 = 3.
Proof.
  split; [| split].
  - apply (hasMoreBatches_counts_batches json_parse Basic secondOfThree
             "graphs" 10 "[{}]" eq_refl eq_refl eq_refl eq_refl).
    vm_compute. reflexivity.
  - apply (hasMoreBatches_counts_batches json_parse Basic thirdOfThree
             "graphs" 10 "[{}]" eq_refl eq_refl eq_refl eq_refl).
    vm_compute. reflexivity.
  - reflexivity.
Defined.

(** ** More on fence stripping *)

Lemma trimEnd_cons_kept (c : ascii) (s : string) :
  s <> "" -> trimEnd s = s -> trimEnd (String c s) = String c s.
Proof.
  intros Hne Hs. cbn [trimEnd]. rewrite Hs.
  destruct s; [contradiction | reflexivity].
Qed.

Lemma trimEnd_again (s : string) : trimEnd (trimEnd s) = trimEnd s.
Proof.
  induction s as [| c r IH]; [reflexivity |].
  destruct (trimEnd r) as [| c' r'] eqn:Hr.
  - assert (E : trimEnd (String c r) =
                if isWhiteSpace c then "" else String c "")
      by (cbn [trimEnd]; rewrite Hr; reflexivity).
    rewrite E. destruct (isWhiteSpace c) eqn:Hc; [reflexivity |].
    cbn [trimEnd]. now rewrite Hc.
  - assert (E : trimEnd (String c r) = String c (String c' r'))
      by (cbn [trimEnd]; rewrite Hr; reflexivity).
    rewrite E. apply trimEnd_cons_kept; [discriminate | exact IH].
Qed.

Lemma trimStart_head (s : string) :
  trimStart s = "" \/
  exists c r, trimStart s = String c r /\ isWhiteSpace c = false.
Proof.
  induction s as [| c r IH]; [left; reflexivity |].
  cbn [trimStart]. destruct (isWhiteSpace c) eqn:Hc; [exact IH |].
  right. exists c, r. split; [reflexivity | exact Hc].
Qed.

Lemma trim_again (s : string) : trim (trim s) = trim s.
Proof.
  unfold trim.
  destruct (trimStart_head s) as [-> | (c & r & -> & Hc)]; [reflexivity |].
  rewrite (trimEnd_cons c r Hc).
  cbn [trimStart]. rewrite Hc.
  rewrite <- (trimEnd_cons c r Hc). apply trimEnd_again.
Qed.

(** X14: a reply which, once trimmed, does not open with three backticks
    is only trimmed: nothing is removed from its end even when it ends with
    a fence, cleaning it again changes nothing, and white space around it
    has no effect on the response. *)
Theorem unfenced_reply_is_only_trimmed (parse : string -> option JValue)
    (v : Version) (req : Request) (text : string) :
  startsWith (trim text) "```" = false ->
  cleanResponse text = trim text /\
  cleanResponse (cleanResponse text) = cleanResponse text /\
  responseTo parse v req (trim text) = responseTo parse v req text.
Proof.
  intros Hno.
  assert (Hc : cleanResponse text = trim text)
    by (apply cleanResponse_plain; exact Hno).
  assert (Hcc : cleanResponse (trim text) = trim text).
  { rewrite cleanResponse_plain; rewrite trim_again; [reflexivity | exact Hno]. }
  split; [exact Hc |]. split; [now rewrite Hc |].
  apply responseTo_same_parse. now rewrite Hc, Hcc.
Qed.

Lemma unfenced_reply_is_only_trimmed_witness :
  cleanResponse (" [1]" ++ nl ++ "```" ++ nl) = "[1]" ++ nl ++ "```".
Proof.
  apply (unfenced_reply_is_only_trimmed json_parse Basic graphsFive
           (" [1]" ++ nl ++ "```" ++ nl)).
  reflexivity.
Defined.

Lemma replaceClosing_noFence (s : string) :
  endsWith s "```" = false -> replaceClosing s = s.
Proof.
  induction s as [| c r IH]; intros H; [reflexivity |].
  cbn [endsWith] in H. apply orb_false_iff in H. destruct H as [Hs Hr].
  cbn [replaceClosing].
  assert (Hc : isClosing (String c r) = false).
  { unfold isClosing. rewrite Hs, orb_false_r.
    apply String.eqb_neq. intros E.
    change (nl ++ "```") with (String LF "```") in E.
    injection E as _ ->. discriminate. }
  rewrite Hc. now rewrite (IH Hr).
Qed.

(** X15: a reply that opens with a fence line but has no closing fence
    (a reply cut short, say) still loses the opening line: when [text] has
    no trailing white space, does not itself open with three backticks and
    does not end with them, [```json] LF [text] and [```] LF [text] are both
    cleaned to [text]. *)
Theorem unclosed_fence_loses_opening (text : string) :
  trimEnd text = text ->
  startsWith text "```" = false ->
  endsWith text "```" = false ->
  cleanResponse ("```json" ++ nl ++ text) = text /\
  cleanResponse ("```" ++ nl ++ text) = text.
Proof.
  intros Htrim Hno Hend.
  destruct text as [| a text'] eqn:Etext; [split; reflexivity |].
  rewrite <- Etext in *.
  assert (Hne : text <> "") by (rewrite Etext; discriminate).
  assert (Hnl : trimEnd (String LF text) = String LF text)
    by (apply trimEnd_cons_kept; assumption).
  split.
  - unfold cleanResponse, trim.
    replace (trimStart ("```json" ++ nl ++ text))
      with (String "`" (String "`" (String "`" (String "j" (String "s"
              (String "o" (String "n" (String LF text))))))))
      by reflexivity.
    rewrite !trimEnd_cons by reflexivity. rewrite Hnl.
    replace (startsWith
               (String "`" (String "`" (String "`" (String "j" (String "s"
                  (String "o" (String "n" (String LF text))))))))
               "```json")
      with true
      by (symmetry; exact (prefix_append "```json" (String LF text))).
    replace (replaceOpening "```json"
               (String "`" (String "`" (String "`" (String "j" (String "s"
                  (String "o" (String "n" (String LF text)))))))))
      with text by reflexivity.
    rewrite (replaceClosing_noFence text Hend), Hno. reflexivity.
  - unfold cleanResponse, trim.
    replace (trimStart ("```" ++ nl ++ text))
      with (String "`" (String "`" (String "`" (String LF text))))
      by reflexivity.
    rewrite !trimEnd_cons by reflexivity. rewrite Hnl.
    replace (startsWith (String "`" (String "`" (String "`" (String LF text))))
               "```json") with false by reflexivity.
    replace (startsWith (String "`" (String "`" (String "`" (String LF text))))
               "```")
      with true
      by (symmetry; exact (prefix_append "```" (String LF text))).
    replace (replaceOpening "```"
               (String "`" (String "`" (String "`" (String LF text)))))
      with text by reflexivity.
    apply (replaceClosing_noFence text Hend).
Qed.

Lemma unclosed_fence_loses_opening_witness :
  cleanResponse ("```json" ++ nl ++ "[{}, 7") = "[{}, 7" /\
  cleanResponse ("```" ++ nl ++ "[{}, 7") = "[{}, 7".
Proof.
  apply (unclosed_fence_loses_opening "[{}, 7"); reflexivity.
Defined.
